(** * dcp: the entry point (src/main.c)

    A shallow embedding of [main.c] of dcp, the digest-computing copy tool:
    option and environment parsing ([parse_cache_size], [parse_digests],
    [parse_outputstream], [parse_owner], [parse_group], [mainopts_parse]),
    the start of a run ([dcp_main], [build_index], [prepare]) and the
    manifest header ([print_metadata]).

    Conventions of the embedding.
    - C strings are [string]; a [char *] that may be [NULL] is an
      [option string]; an array that travels with its count is a [list].
    - [int], [uid_t], [gid_t] and [mode_t] values are [Z]; [size_t] is a
      64-bit unsigned integer (LP64) and its wrap-around is written out
      with [to_size_t].
    - The operating system (environment variables, user database, file
      system, clock) and the functions of dcp that live outside [main.c]
      (the index, the manifest reader and writer, the copy engine) are the
      fields of a [world]; every theorem quantifies over it.
    - Effects are a trace of [event]s; [log_critx]/[log_crit] end the
      process with the given exit status.
    - Memory allocation ([strdup], [asprintf]) is taken to succeed. *)

From Stdlib Require Import ZArith List String Ascii Bool Lia DecimalString.
From Stdlib Require DecimalFacts DecimalPos.
Import ListNotations.
Local Open Scope Z_scope.

(* ------------------------------------------------------------------ *)
(** * C library functions used by main.c *)

Module Libc.

Definition EXIT_FAILURE : Z := 1.
Definition ENOENT : Z := 2.
Definition EEXIST : Z := 17.

Definition LONG_MAX : Z := 2 ^ 63 - 1.
Definition LONG_MIN : Z := - 2 ^ 63.
Definition INT_MAX : Z := 2 ^ 31 - 1.

(** Conversion to [size_t]. *)
Definition to_size_t (z : Z) : Z := z mod 2 ^ 64.

(** Conversion to [int], the [(signed)] cast of an [unsigned]. *)
Definition to_int (z : Z) : Z := (z + 2 ^ 31) mod 2 ^ 32 - 2 ^ 31.

(** [s + n]: the string from offset [n] on. *)
Fixpoint drop (n : nat) (s : string) : string :=
  match n, s with
  | S k, String _ r => drop k r
  | _, _ => s
  end.

Definition isspace (c : ascii) : bool :=
  let n := nat_of_ascii c in
  (n =? 32)%nat || ((9 <=? n)%nat && (n <=? 13)%nat).

(** Value of a character as a digit, letters counting from ten. *)
Definition digit_of (c : ascii) : option Z :=
  let n := Z.of_nat (nat_of_ascii c) in
  if (48 <=? n) && (n <=? 57) then Some (n - 48)
  else if (97 <=? n) && (n <=? 122) then Some (n - 87)
  else if (65 <=? n) && (n <=? 90) then Some (n - 55)
  else None.

Fixpoint count_space (s : string) : nat :=
  match s with
  | String c r => if isspace c then S (count_space r) else O
  | EmptyString => O
  end.

(** The longest run of digits of base [b]: its value on top of [acc]
    and its length. *)
Fixpoint scan_digits (b : Z) (s : string) (acc : Z) : Z * nat :=
  match s with
  | String c r =>
      match digit_of c with
      | Some d =>
          if d <? b
          then let (v, k) := scan_digits b r (acc * b + d) in (v, S k)
          else (acc, O)
      | None => (acc, O)
      end
  | EmptyString => (acc, O)
  end.

Definition is_x (c : ascii) : bool :=
  Ascii.eqb c "x" || Ascii.eqb c "X".

Definition starts_hex (s : string) : bool :=
  match s with
  | String c _ =>
      match digit_of c with Some d => d <? 16 | None => false end
  | EmptyString => false
  end.

(** [strtol(nptr, &end, 0)]: the value, saturated to [long], and the
    offset of [end] in [nptr]; offset [0] is [end == nptr], no
    conversion.  White space, an optional sign, then a [0x] prefix
    selects base 16, a leading [0] base 8, otherwise base 10. *)
Definition strtol (nptr : string) : Z * nat :=
  let ws := count_space nptr in
  let s1 := drop ws nptr in
  let '(neg, sg) :=
    match s1 with
    | String "-" _ => (true, 1%nat)
    | String "+" _ => (false, 1%nat)
    | _ => (false, 0%nat)
    end in
  let s2 := drop sg s1 in
  let '(base, pre) :=
    match s2 with
    | String "0" (String x r) =>
        if is_x x && starts_hex r then (16, 2%nat) else (8, 0%nat)
    | String "0" EmptyString => (8, 0%nat)
    | _ => (10, 0%nat)
    end in
  let '(v, k) := scan_digits base (drop pre s2) 0 in
  match k with
  | O => (0, O)
  | _ =>
      let v := if neg then - v else v in
      (Z.max LONG_MIN (Z.min LONG_MAX v), (ws + sg + pre + k)%nat)
  end.

(** GNU [basename] (the one [<string.h>] declares under [_GNU_SOURCE]):
    what follows the last ['/'], the whole string when there is none. *)
Fixpoint basename_from (s : string) (acc : string) : string :=
  match s with
  | String c r =>
      if Ascii.eqb c "/" then basename_from r r else basename_from r acc
  | EmptyString => acc
  end.

Definition basename (s : string) : string := basename_from s s.

(** [dest[strlen(dest) - 1]] *)
Fixpoint last_char (s : string) : option ascii :=
  match s with
  | EmptyString => None
  | String c EmptyString => Some c
  | String _ r => last_char r
  end.

(** [s[strlen(s) - 1] = '\0'] *)
Fixpoint chop (s : string) : string :=
  match s with
  | EmptyString => EmptyString
  | String c EmptyString => EmptyString
  | String c r => String c (chop r)
  end.

(** ["%zu"] *)
Definition fmt_zu (n : Z) : string :=
  NilZero.string_of_uint (N.to_uint (Z.to_N n)).

(** [S_ISDIR] of [<sys/stat.h>] *)
Definition S_IFMT : Z := 61440.  (* 0170000 *)
Definition S_IFDIR : Z := 16384. (* 0040000 *)
Definition S_ISDIR (mode : Z) : bool := Z.land mode S_IFMT =? S_IFDIR.

End Libc.
Import Libc.

(* ------------------------------------------------------------------ *)
(** * Data of main.c *)

(** [struct cmdline_info], as gengetopt fills it.  An option with an
    argument has a [_given] count and an [_arg] that is meaningful when
    the option was given; [inputs] are the positional operands
    ([inputs_num] is their number); [input_arg] is [NULL] without any
    [--input]. *)
Record cmdline_info := {
  all_flag : bool;
  md5_flag : bool;
  sha1_flag : bool;
  sha256_flag : bool;
  sha512_flag : bool;
  output_given : bool;
  output_arg : string;
  input_arg : option (list string);
  owner_given : bool;
  owner_arg : string;
  group_given : bool;
  group_arg : string;
  cache_size_given : bool;
  cache_size_arg : string;
  verbose_flag : bool;
  debug_flag : bool;
  inputs : list string
}.

Definition inputs_num (info : cmdline_info) : Z :=
  Z.of_nat (List.length (inputs info)).

(** [struct mainopts].  [outputstream] is the name of the file the stream
    writes to, [None] for a [NULL] stream; [inputs] carries [inputcount]
    as its length. *)
Module Opts.
Record mainopts := {
  files : list string;
  filecount : Z;
  dest : string;
  digests : Z;
  inputs : option (list string);
  outputstream : option string;
  outfilename : string;
  uid : Z;
  gid : Z;
  username : option string;
  groupname : option string;
  cache_size : Z;
  verbose_mode : bool
}.
End Opts.
Definition mainopts : Type := Opts.mainopts.

(** The index as main.c leaves it: the digest type it was created with
    and the manifests read into it, oldest first. *)
Record index_t := {
  idx_type : Z;
  idx_read : list string
}.

(** [struct dcp_options] *)
Module DcpOpts.
Record dcp_options := {
  bufsize : Z;
  digests : Z;
  uid : Z;
  gid : Z;
  index : option index_t;
  verbose : bool
}.
End DcpOpts.
Definition dcp_options : Type := DcpOpts.dcp_options.

(** Result of [stat]: the mode, or [errno]. *)
Inductive stat_result :=
| StatOk (st_mode : Z)
| StatErr (errno : Z).

(** What the process can ask of its surroundings.  The last five fields
    are the functions of dcp that main.c calls and does not define. *)
Record world := {
  getenv : string -> option string;
  geteuid : Z;
  getegid : Z;
  getpwnam : string -> option Z;       (* pw_uid of the entry *)
  getgrnam : string -> option Z;       (* gr_gid of the entry *)
  sys_stat : string -> stat_result;
  fopen_w : string -> bool;            (* fopen(path, "w") != NULL *)
  open_excl : string -> option Z;      (* open(O_CREAT|O_EXCL): errno *)
  fdopen_a : string -> bool;           (* fdopen(fd, "a") != NULL *)
  getcwd : option string;
  gethostname : string;
  ctime_now : string;                  (* ctime(time(NULL)) *)
  io_index_digest_peek : list string -> Z -> option Z;
  index_create : Z -> bool;
  io_index_read : index_t -> string -> bool;
  io_dcp_processor_ctx_create : option string -> bool;
  dcp : string -> list string -> Z -> dcp_options -> Z
}.

(** [stat(2)]: the empty path does not name a file. *)
Definition stat (w : world) (path : string) : stat_result :=
  match path with
  | EmptyString => StatErr ENOENT
  | _ => sys_stat w path
  end.

(* ------------------------------------------------------------------ *)
(** * Effects *)

(** A line of manifest header handed to the manifest writer. *)
Inductive meta_call :=
| io_metadata_put (key : string) (value : option string)
| io_metadata_put_strs (key : string) (strs : list string) (sep : string)
| io_metadata_put_json (key : string) (strs : list string).

Inductive event :=
| Warn (msg : string)                 (* warnx, log_warn *)
| LogError (msg : string)             (* log_error *)
| Create (path : string)              (* the output file comes to exist *)
| Metadata (out : string) (m : meta_call)
| IndexCreate (type : Z)
| IndexRead (path : string)
| Dcp (dest : string) (files : list string) (count : Z)
      (opts : dcp_options).           (* the copy engine runs *)

Inductive result (A : Type) :=
| Done (a : A)
| Exit (status : Z) (msg : string)    (* the process ended *)
| Spin.                               (* the loop bound was reached *)
Arguments Done {A} a.
Arguments Exit {A} status msg.
Arguments Spin {A}.

Definition M (A : Type) : Type := list event * result A.

Definition ret {A} (a : A) : M A := ([], Done a).

Definition bind {A B} (m : M A) (f : A -> M B) : M B :=
  match m with
  | (t, Done a) => let (t', r) := f a in (t ++ t', r)
  | (t, Exit s msg) => (t, Exit s msg)
  | (t, Spin) => (t, Spin)
  end.

Definition emit (e : event) : M unit := ([e], Done tt).

(** Modelled from the spec: [logging.h] is missing; a fatal error aborts
    at once with a descriptive message and the exit status [eval].
    [log_critx(eval, ...)] and [log_crit(eval, ...)] are that. *)
Definition log_critx {A} (eval : Z) (msg : string) : M A := ([], Exit eval msg).
Definition log_crit {A} (eval : Z) (msg : string) : M A := ([], Exit eval msg).

Definition trace {A} (m : M A) : list event := fst m.
Definition outcome {A} (m : M A) : result A := snd m.

Declare Scope dcp_scope.
Delimit Scope dcp_scope with dcp.
Notation "x <- c1 ;; c2" := (bind c1 (fun x => c2))
  (at level 61, c1 at next level, right associativity) : dcp_scope.
Notation "' pat <- c1 ;; c2" :=
  (bind c1 (fun x => match x with pat => c2 end))
  (at level 61, pat pattern, c1 at next level, right associativity) : dcp_scope.
Notation "c1 ;; c2" := (bind c1 (fun _ => c2))
  (at level 61, right associativity) : dcp_scope.
Local Open Scope dcp_scope.

Notation "a +++ b" := (String.append a b)
  (at level 60, right associativity).

Definition ENV_OWNER : string := "DCP_OWNER".
Definition ENV_GROUP : string := "DCP_GROUP".
Definition ENV_CACHE_SIZE : string := "DCP_CACHE_SIZE".

(* ------------------------------------------------------------------ *)
(** * Sample surroundings and command lines *)

Module Sample.

Definition eqs (a b : string) : bool := String.eqb a b.

(** A machine with user [alice] and group [staff], directories [src]
    and [dst], a file [notes.txt], an existing [dcp.out], and a prior
    manifest whose header declares sha1 (bit 2 of the masks below);
    [bad.out] cannot be read into an index, [junk.out] cannot even be
    peeked at. *)
Definition world_env (env : string -> option string) : world := {|
  getenv := env;
  geteuid := 1000;
  getegid := 100;
  getpwnam := fun n => if eqs n "alice" then Some 501 else None;
  getgrnam := fun n => if eqs n "staff" then Some 20 else None;
  sys_stat := fun p =>
    if eqs p "src" || eqs p "dst" || eqs p "dst/" then StatOk 16877
    else if eqs p "notes.txt" then StatOk 33188
    else StatErr ENOENT;
  fopen_w := fun _ => true;
  open_excl := fun n => if eqs n "dcp.out" then Some EEXIST else None;
  fdopen_a := fun _ => true;
  getcwd := Some "/home/alice"%string;
  gethostname := "host"%string;
  ctime_now := "Tue Nov  3 02:30:00 2026" +++ String "010"%char EmptyString;
  io_index_digest_peek := fun paths d =>
    if existsb (eqs "junk.out") paths then None else Some 2;
  index_create := fun _ => true;
  io_index_read := fun _ p => negb (eqs p "bad.out");
  io_dcp_processor_ctx_create := fun _ => true;
  dcp := fun _ _ _ _ => 0
|}.

Definition no_env : string -> option string := fun _ => None.

Definition some_env : string -> option string := fun n =>
  if eqs n "DCP_OWNER" then Some "alice"%string
  else if eqs n "DCP_GROUP" then Some "wheel"%string
  else if eqs n "DCP_CACHE_SIZE" then Some "64k"%string
  else None.

Definition plain : world := world_env no_env.
Definition with_env : world := world_env some_env.

Definition given (o : option string) : bool :=
  match o with Some _ => true | None => false end.

Definition arg (o : option string) : string :=
  match o with Some s => s | None => EmptyString end.

(** A command line with no algorithm flag. *)
Definition cmdline (operands : list string) (input : option (list string))
    (output owner group cache : option string) : cmdline_info := {|
  all_flag := false;
  md5_flag := false;
  sha1_flag := false;
  sha256_flag := false;
  sha512_flag := false;
  output_given := given output;
  output_arg := arg output;
  input_arg := input;
  owner_given := given owner;
  owner_arg := arg owner;
  group_given := given group;
  group_arg := arg group;
  cache_size_given := given cache;
  cache_size_arg := arg cache;
  verbose_flag := false;
  debug_flag := false;
  inputs := operands
|}.

(** Algorithm flags alone. *)
Definition flags (all md5 sha1 sha256 sha512 : bool) : cmdline_info := {|
  all_flag := all;
  md5_flag := md5;
  sha1_flag := sha1;
  sha256_flag := sha256;
  sha512_flag := sha512;
  output_given := false;
  output_arg := EmptyString;
  input_arg := None;
  owner_given := false;
  owner_arg := EmptyString;
  group_given := false;
  group_arg := EmptyString;
  cache_size_given := false;
  cache_size_arg := EmptyString;
  verbose_flag := false;
  debug_flag := false;
  inputs := ["src"%string; "dst"%string]
|}.

(** [dcp src dst] as parsed, with md5 (bit 1) from the command line. *)
Definition parsed (input : option (list string)) : mainopts := {|
  Opts.files := ["src"%string; "dst"%string];
  Opts.filecount := 1;
  Opts.dest := "dst";
  Opts.digests := 1;
  Opts.inputs := input;
  Opts.outputstream := Some "dcp(1).out"%string;
  Opts.outfilename := "dcp(1).out";
  Opts.uid := 1000;
  Opts.gid := 100;
  Opts.username := None;
  Opts.groupname := None;
  Opts.cache_size := 32768;
  Opts.verbose_mode := false
|}.

Definition argv : list string := ["dcp"; "src"; "dst"]%string.

(** The same machine with a directory that takes no new file: [dcp.out]
    exists, and creating any other name is refused (EACCES). *)
Definition locked : world := {|
  getenv := no_env;
  geteuid := 1000;
  getegid := 100;
  getpwnam := fun n => if eqs n "alice" then Some 501 else None;
  getgrnam := fun n => if eqs n "staff" then Some 20 else None;
  sys_stat := fun p =>
    if eqs p "src" || eqs p "dst" then StatOk 16877 else StatErr ENOENT;
  fopen_w := fun _ => false;
  open_excl := fun n => if eqs n "dcp.out" then Some EEXIST else Some 13;
  fdopen_a := fun _ => true;
  getcwd := None;
  gethostname := "host"%string;
  ctime_now := "Tue Nov  3 02:30:00 2026" +++ String "010"%char EmptyString;
  io_index_digest_peek := fun _ _ => None;
  index_create := fun _ => true;
  io_index_read := fun _ _ => true;
  io_dcp_processor_ctx_create := fun _ => true;
  dcp := fun _ _ _ _ => 0
|}.

(** [dcp source dest] as parsed, one source operand. *)
Definition parsed_at (source dest : string) (input : option (list string))
  : mainopts := {|
  Opts.files := [source; dest];
  Opts.filecount := 1;
  Opts.dest := dest;
  Opts.digests := 1;
  Opts.inputs := input;
  Opts.outputstream := Some "dcp(1).out"%string;
  Opts.outfilename := "dcp(1).out";
  Opts.uid := 1000;
  Opts.gid := 100;
  Opts.username := None;
  Opts.groupname := None;
  Opts.cache_size := 32768;
  Opts.verbose_mode := false
|}.

(** A machine where the paths [dirs] are directories and nothing else
    exists, and [read] decides which manifest the index takes; the peek
    at prior manifests finds sha1 (mask 2). *)
Definition world_fs (dirs : list string)
    (read : index_t -> string -> bool) : world := {|
  getenv := no_env;
  geteuid := 1000;
  getegid := 100;
  getpwnam := fun n => if eqs n "alice" then Some 501 else None;
  getgrnam := fun n => if eqs n "staff" then Some 20 else None;
  sys_stat := fun p =>
    if existsb (eqs p) dirs then StatOk 16877 else StatErr ENOENT;
  fopen_w := fun _ => true;
  open_excl := fun n => if eqs n "dcp.out" then Some EEXIST else None;
  fdopen_a := fun _ => true;
  getcwd := Some "/home/alice"%string;
  gethostname := "host"%string;
  ctime_now := "Tue Nov  3 02:30:00 2026" +++ String "010"%char EmptyString;
  io_index_digest_peek := fun _ _ => Some 2;
  index_create := fun _ => true;
  io_index_read := read;
  io_dcp_processor_ctx_create := fun _ => true;
  dcp := fun _ _ _ _ => 0
|}.

(** [src] can also be named with a slash at its end. *)
Definition slashed : world :=
  world_fs ["src"; "src/"; "dst"]%string (fun _ _ => true).

(** An earlier run has left [dst/src] behind. *)
Definition deep : world :=
  world_fs ["src"; "dst"; "dst/src"]%string (fun _ _ => true).

(** [md5only.out] has no sha1 digests: an index keyed by sha1 (type 2)
    does not take it, any other index does. *)
Definition picky : world :=
  world_fs ["src"; "dst"]%string
    (fun idx p => negb (eqs p "md5only.out" && (idx_type idx =? 2))).

End Sample.

(* ------------------------------------------------------------------ *)
(** * The functions of main.c *)

Section Main.

(** [digest.h] and [config.h] are not among the sources: the digest
    bits, their union [DGST_ALL] and [VERSION] are parameters. *)
Variables DGST_MD5 DGST_SHA1 DGST_SHA256 DGST_SHA512 DGST_ALL : Z.
Variable VERSION : string.

Variable w : world.

(** Modelled from the spec: the [HAS_]x macros of [digest.h] are missing;
    the mask is a bit set, and an algorithm is in use when its bit is
    set. *)
Definition HAS_MD5 (d : Z) : bool := negb (Z.land d DGST_MD5 =? 0).
Definition HAS_SHA1 (d : Z) : bool := negb (Z.land d DGST_SHA1 =? 0).
Definition HAS_SHA256 (d : Z) : bool := negb (Z.land d DGST_SHA256 =? 0).
Definition HAS_SHA512 (d : Z) : bool := negb (Z.land d DGST_SHA512 =? 0).

(** The character at [end], which the [switch] looks at; [None] is ['\0']. *)
Definition suffix_at (e : nat) (val : string) : option ascii :=
  String.get e val.

(** [parse_cache_size] from [size = strtol(val, &end, 0)] on, [val] not
    being [NULL]. *)
Definition parse_cache_size_val (val : string) : M Z :=
  let '(n, e) := strtol val in
  let size := to_size_t n in
  match e with
  | O => log_critx EXIT_FAILURE ("invalid cache size: '" +++ val +++ "'")
  | _ =>
      match suffix_at e val with
      | None => ret size
      | Some c =>
          if Ascii.eqb c "k" || Ascii.eqb c "K"
          then ret (to_size_t (size * 1024))
          else if Ascii.eqb c "m" || Ascii.eqb c "M"
          then ret (to_size_t (size * (1024 * 1024)))
          else if Ascii.eqb c "g" || Ascii.eqb c "G"
          then ret (to_size_t (size * (1024 * 1024 * 1024)))
          else log_critx EXIT_FAILURE
                 ("invalid cache suffix: '" +++ val +++ "'")
      end
  end.

Definition parse_cache_size (info : cmdline_info) : M Z :=
  let size := 32768 in
  let val := getenv w ENV_CACHE_SIZE in
  let val := if cache_size_given info
             then Some (cache_size_arg info) else val in
  match val with
  | None => ret size
  | Some val => parse_cache_size_val val
  end.

Definition parse_digests (info : cmdline_info) : Z :=
  let digests := 0 in
  if all_flag info then DGST_ALL else
  let digests := if md5_flag info then Z.lor digests DGST_MD5 else digests in
  let digests := if sha1_flag info then Z.lor digests DGST_SHA1 else digests in
  let digests := if sha256_flag info then Z.lor digests DGST_SHA256 else digests in
  let digests := if sha512_flag info then Z.lor digests DGST_SHA512 else digests in
  if digests =? 0 then DGST_MD5 else digests.

(** The loop of [parse_outputstream]: try [name], and on [EEXIST] the
    next numbered name.  [fuel] bounds the number of attempts. *)
Fixpoint open_output (fuel : nat) (name : string) (i : Z) : M string :=
  match fuel with
  | O => ([], Spin)
  | S fuel =>
      match open_excl w name with
      | None => emit (Create name) ;; ret name
      | Some errno =>
          if errno =? EEXIST
          then let i := to_size_t (i + 1) in
               open_output fuel ("dcp(" +++ fmt_zu i +++ ").out") i
          else log_crit EXIT_FAILURE
                 ("cannot create output file '" +++ name +++ "'")
      end
  end.

(** Returns the stream and [*outfilename]. *)
Definition parse_outputstream (fuel : nat) (info : cmdline_info)
  : M (option string * string) :=
  if output_given info then
    if fopen_w w (output_arg info)
    then emit (Create (output_arg info)) ;;
         ret (Some (output_arg info), output_arg info)
    else log_crit EXIT_FAILURE
           ("failed to open output file '" +++ output_arg info +++ "'")
  else
    name <- open_output fuel "dcp.out" 0 ;;
    if fdopen_a w name
    then ret (Some name, name)
    else log_crit EXIT_FAILURE "cannot create output stream".

(** Returns the uid and [*name]. *)
Definition parse_owner (info : cmdline_info) : M (Z * option string) :=
  let user := getenv w ENV_OWNER in
  let user := if owner_given info then Some (owner_arg info) else user in
  let name := user in
  match user with
  | None => ret (geteuid w, name)
  | Some user =>
      match getpwnam w user with
      | None =>
          emit (Warn ("uid lookup for '" +++ user
                      +++ "' failed defaulting to euid")) ;;
          ret (geteuid w, name)
      | Some pw_uid => ret (pw_uid, name)
      end
  end.

(** Returns the gid and [*name]. *)
Definition parse_group (info : cmdline_info) : M (Z * option string) :=
  let groupname := getenv w ENV_GROUP in
  let groupname := if group_given info
                   then Some (group_arg info) else groupname in
  let name := groupname in
  match groupname with
  | None => ret (getegid w, name)
  | Some groupname =>
      match getgrnam w groupname with
      | None =>
          emit (Warn ("gid lookup for '" +++ groupname
                      +++ "' failed defaulting to egid")) ;;
          ret (getegid w, name)
      | Some gr_gid => ret (gr_gid, name)
      end
  end.

(** The assignment to [logging_debug_mode], a global of the logging
    module, is left out. *)
Definition mainopts_parse (fuel : nat) (info : cmdline_info) : M mainopts :=
  let filecount := to_int (inputs_num info) - 1 in
  if filecount <? 0
  then log_critx EXIT_FAILURE "missing file operand"
  else if filecount =? 0
  then log_critx EXIT_FAILURE
         ("missing destination file operand after '"
          +++ nth 0 (inputs info) EmptyString +++ "'")
  else
    let files := inputs info in
    let dest := nth (Z.to_nat filecount) files EmptyString in
    let digests := parse_digests info in
    '(outputstream, outfilename) <- parse_outputstream fuel info ;;
    let inputs := input_arg info in
    '(uid, username) <- parse_owner info ;;
    '(gid, groupname) <- parse_group info ;;
    cache_size <- parse_cache_size info ;;
    ret {| Opts.files := files;
           Opts.filecount := filecount;
           Opts.dest := dest;
           Opts.digests := digests;
           Opts.inputs := inputs;
           Opts.outputstream := outputstream;
           Opts.outfilename := outfilename;
           Opts.uid := uid;
           Opts.gid := gid;
           Opts.username := username;
           Opts.groupname := groupname;
           Opts.cache_size := cache_size;
           Opts.verbose_mode := verbose_flag info |}.

(** The test at the head of [build_index]: [type] is the first of
    [digests & DGST_MD5], [digests & DGST_SHA1], ... that is not zero;
    [None] when all four are zero. *)
Definition build_index_type (digests : Z) : option Z :=
  let type := Z.land digests DGST_MD5 in
  if negb (type =? 0) then Some type else
  let type := Z.land digests DGST_SHA1 in
  if negb (type =? 0) then Some type else
  let type := Z.land digests DGST_SHA256 in
  if negb (type =? 0) then Some type else
  let type := Z.land digests DGST_SHA512 in
  if negb (type =? 0) then Some type else
  None.

(** The [for] loop of [build_index]. *)
Fixpoint build_index_read (idx : index_t) (paths : list string)
  : M index_t :=
  match paths with
  | [] => ret idx
  | path :: paths =>
      emit (IndexRead path) ;;
      if io_index_read w idx path
      then build_index_read
             {| idx_type := idx_type idx;
                idx_read := idx_read idx ++ [path] |} paths
      else log_critx EXIT_FAILURE
             ("error building index with entries from '" +++ path +++ "'")
  end.

Definition build_index (digests : Z) (paths : list string) : M index_t :=
  match build_index_type digests with
  | None =>
      log_critx EXIT_FAILURE "corrput parsing of digest types from inputs"
  | Some type =>
      emit (IndexCreate type) ;;
      if index_create w type
      then build_index_read {| idx_type := type; idx_read := [] |} paths
      else log_critx EXIT_FAILURE "cannot create index"
  end.

(** Returns the [int] result and [*newdest]. *)
Definition prepare (files : list string) (count : Z) (dest : string)
  : M (Z * option string) :=
  let newdest : option string := None in
  if count =? 1 then
    let path := nth 0 files EmptyString in
    match stat w path with
    | StatErr _ =>
        emit (LogError ("cannot stat `" +++ path +++ "'")) ;;
        ret (-1, newdest)
    | StatOk st_mode =>
        if S_ISDIR st_mode then
          match stat w dest with
          | StatOk st_mode =>
              if S_ISDIR st_mode then
                let name := basename path in
                let slash :=
                  match last_char dest with
                  | Some c => if Ascii.eqb c "/" then EmptyString else "/"%string
                  | None => "/"%string
                  end in
                let fulldest := dest +++ slash +++ name in
                ret (0, Some fulldest)
              else ret (0, newdest)
          | StatErr errno =>
              if negb (errno =? ENOENT) then
                emit (LogError ("cannot stat `" +++ dest +++ "'")) ;;
                ret (-1, newdest)
              else ret (0, newdest)
          end
        else ret (0, newdest)
    end
  else ret (0, newdest).

Definition meta (out : string) (m : meta_call) : M unit :=
  emit (Metadata out m).

Definition print_metadata (out : option string) (version : string)
    (argv : list string) (opts : mainopts) (digests : Z) : M Z :=
  match out with
  | None => ret 0
  | Some out =>
      let timestamp := chop (ctime_now w) in
      let dgsts :=
        (if HAS_MD5 digests then ["md5"%string] else [])
        ++ (if HAS_SHA1 digests then ["sha1"%string] else [])
        ++ (if HAS_SHA256 digests then ["sha256"%string] else [])
        ++ (if HAS_SHA512 digests then ["sha512"%string] else []) in
      let cwd := getcwd w in
      match cwd with
      | None => emit (Warn "cannot retrieve current working directory")
      | Some _ => ret tt
      end ;;
      meta out (io_metadata_put "File Generated by dcp DO NOT EDIT" None) ;;
      meta out (io_metadata_put "version    " (Some version)) ;;
      meta out (io_metadata_put "timestamp  " (Some timestamp)) ;;
      meta out (io_metadata_put_strs "command    " argv " ") ;;
      meta out (io_metadata_put_strs "digests    " dgsts ", ") ;;
      meta out (io_metadata_put "host       " (Some (gethostname w))) ;;
      match cwd with
      | Some cwd => meta out (io_metadata_put_json "cwd        " [cwd])
      | None => ret tt
      end ;;
      meta out (io_metadata_put_json "sources    "
                  (firstn (Z.to_nat (Opts.filecount opts)) (Opts.files opts))) ;;
      meta out (io_metadata_put_json "destination" [Opts.dest opts]) ;;
      meta out (io_metadata_put_json "output     " [Opts.outfilename opts]) ;;
      match Opts.username opts with
      | Some username => meta out (io_metadata_put "data_owner " (Some username))
      | None => ret tt
      end ;;
      match Opts.groupname opts with
      | Some groupname => meta out (io_metadata_put "data_group " (Some groupname))
      | None => ret tt
      end ;;
      ret 0
  end.

Definition dcp_main (opts : mainopts) (argv : list string) : M Z :=
  let idx : option index_t := None in
  let digests := Opts.digests opts in
  '(idx, digests) <-
    match Opts.inputs opts with
    | Some inputs =>
        match io_index_digest_peek w inputs digests with
        | None =>
            log_critx EXIT_FAILURE
              "cannot determine digest types from input file(s)"
        | Some digests =>
            idx <- build_index digests inputs ;;
            ret (Some idx, digests)
        end
    | None => ret (idx, digests)
    end ;;
  print_metadata (Opts.outputstream opts) VERSION argv opts digests ;;
  (if io_dcp_processor_ctx_create w (Opts.outputstream opts) then ret tt
   else log_critx EXIT_FAILURE "cannot instantiate output context") ;;
  let dcpopts :=
    {| DcpOpts.bufsize := Opts.cache_size opts;
       DcpOpts.digests := Opts.digests opts;
       DcpOpts.uid := Opts.uid opts;
       DcpOpts.gid := Opts.gid opts;
       DcpOpts.index := idx;
       DcpOpts.verbose := Opts.verbose_mode opts |} in
  '(r, newdest) <- prepare (Opts.files opts) (Opts.filecount opts)
                     (Opts.dest opts) ;;
  if negb (r =? 0) then log_critx EXIT_FAILURE "cannot prepare destination"
  else
    let dest := match newdest with
                | Some d => d
                | None => Opts.dest opts
                end in
    emit (Dcp dest (Opts.files opts) (Opts.filecount opts) dcpopts) ;;
    ret (dcp w dest (Opts.files opts) (Opts.filecount opts) dcpopts).

(** [main]: [info] is what [cmdline_parser] made of [argv]; the two
    clean-up calls free memory and close the stream and are left out. *)
Definition main (fuel : nat) (argv : list string) (info : cmdline_info)
  : M Z :=
  opts <- mainopts_parse fuel info ;;
  r <- dcp_main opts argv ;;
  ret r.

(** The algorithms of [digest_t], in the order main.c tests them. *)
Inductive digest_t := MD5 | SHA1 | SHA256 | SHA512.

Definition DGST (a : digest_t) : Z :=
  match a with
  | MD5 => DGST_MD5
  | SHA1 => DGST_SHA1
  | SHA256 => DGST_SHA256
  | SHA512 => DGST_SHA512
  end.

Definition ordinal (a : digest_t) : nat :=
  match a with
  | MD5 => 0
  | SHA1 => 1
  | SHA256 => 2
  | SHA512 => 3
  end.

Definition has (a : digest_t) (d : Z) : bool :=
  match a with
  | MD5 => HAS_MD5 d
  | SHA1 => HAS_SHA1 d
  | SHA256 => HAS_SHA256 d
  | SHA512 => HAS_SHA512 d
  end.

(** [path] stats as a directory. *)
Definition is_dir (path : string) : bool :=
  match stat w path with
  | StatOk st_mode => S_ISDIR st_mode
  | StatErr _ => false
  end.

Definition ends_in_slash (s : string) : bool :=
  match last_char s with
  | Some c => Ascii.eqb c "/"
  | None => false
  end.

(** destination/basename(source) *)
Definition nested (dest src : string) : string :=
  dest +++ (if ends_in_slash dest then EmptyString else "/"%string)
       +++ basename src.

(** What [prepare] hands back in [*newdest]. *)
Definition new_dest (files : list string) (count : Z) (dest : string)
  : option string :=
  let src := nth 0 files EmptyString in
  if (count =? 1) && is_dir src && is_dir dest
  then Some (nested dest src) else None.

Definition digest_name (a : digest_t) : string :=
  match a with
  | MD5 => "md5"
  | SHA1 => "sha1"
  | SHA256 => "sha256"
  | SHA512 => "sha512"
  end.

(** The algorithms of a mask, lowest ordinal first. *)
Definition in_use (d : Z) : list digest_t :=
  filter (fun a => has a d) [MD5; SHA1; SHA256; SHA512].

(** The source operands of a parsed command line. *)
Definition sources (opts : mainopts) : list string :=
  firstn (Z.to_nat (Opts.filecount opts)) (Opts.files opts).

(** The header lines of a trace. *)
Fixpoint header (t : list event) : list meta_call :=
  match t with
  | Metadata _ m :: t => m :: header t
  | _ :: t => header t
  | [] => []
  end.

(** The runs of the copy engine in a trace. *)
Fixpoint dcp_calls (t : list event) : list (string * dcp_options) :=
  match t with
  | Dcp dest _ _ o :: t => (dest, o) :: dcp_calls t
  | _ :: t => dcp_calls t
  | [] => []
  end.

(** No header line, no output file, no run of the copy engine. *)
Definition index_only (e : event) : bool :=
  match e with
  | IndexCreate _ | IndexRead _ => true
  | _ => false
  end.

(** The names [parse_outputstream] tries without [--output], in order:
    [dcp.out], [dcp(1).out], [dcp(2).out], ... *)
Definition auto_name (k : nat) : string :=
  match k with
  | O => "dcp.out"%string
  | _ => "dcp(" +++ fmt_zu (Z.of_nat k) +++ ").out"
  end.

(** The flag of the command line that asks for one algorithm. *)
Definition flag_of (a : digest_t) (info : cmdline_info) : bool :=
  match a with
  | MD5 => md5_flag info
  | SHA1 => sha1_flag info
  | SHA256 => sha256_flag info
  | SHA512 => sha512_flag info
  end.

(** The key of a header line. *)
Definition meta_key (m : meta_call) : string :=
  match m with
  | io_metadata_put key _ => key
  | io_metadata_put_strs key _ _ => key
  | io_metadata_put_json key _ => key
  end.

(** The manifests a trace reads into the index, in order. *)
Fixpoint index_reads (t : list event) : list string :=
  match t with
  | IndexRead path :: t => path :: index_reads t
  | _ :: t => index_reads t
  | [] => []
  end.

(** The output files a trace creates. *)
Fixpoint created (t : list event) : list string :=
  match t with
  | Create path :: t => path :: created t
  | _ :: t => created t
  | [] => []
  end.

(** The suffix letters of [parse_cache_size] and what they multiply by. *)
Definition cache_suffixes : list (ascii * Z) :=
  [("k"%char, 1024); ("K"%char, 1024);
   ("m"%char, 1024 * 1024); ("M"%char, 1024 * 1024);
   ("g"%char, 1024 * 1024 * 1024); ("G"%char, 1024 * 1024 * 1024)].

Definition is_cache_suffix (c : ascii) : bool :=
  existsb (fun s => Ascii.eqb c (fst s)) cache_suffixes.

(** A string at which a decimal scan stops at once. *)
Definition stops_decimal (s : string) : Prop :=
  forall acc, scan_digits 10 s acc = (acc, O).

(** The run gets past its index: there is no [--input], or the peek and
    [build_index] both succeed. *)
Definition index_ready (opts : mainopts) : Prop :=
  Opts.inputs opts = None \/
  exists paths digests ti i,
    Opts.inputs opts = Some paths /\
    io_index_digest_peek w paths (Opts.digests opts) = Some digests /\
    build_index digests paths = (ti, Done i).

(* ---------------------------------------------------------------- *)
(** * Properties *)

(** ** The effect monad *)

Lemma outcome_bind_done {A B} (m : M A) (f : A -> M B) b :
  outcome (bind m f) = Done b ->
  exists a, outcome m = Done a /\ outcome (f a) = Done b.
Proof.
  unfold bind, outcome. destruct m as [t1 [a | s msg | ]]; simpl;
    try discriminate.
  destruct (f a) as [t2 r] eqn:Hf. simpl. intros ->.
  exists a. rewrite Hf. auto.
Qed.

(** ** Digest masks *)

Section Masks.

(** Each algorithm is one bit of the mask. *)
Hypothesis DGST_bit : forall a, exists k, 0 <= k /\ DGST a = 2 ^ k.

Lemma land_pow2 (d k : Z) :
  0 <= k -> Z.land d (2 ^ k) = 0 \/ Z.land d (2 ^ k) = 2 ^ k.
Proof.
  intros Hk. destruct (Z.testbit d k) eqn:E; [right | left];
    apply Z.bits_inj'; intros n Hn;
    rewrite Z.land_spec, ?Z.bits_0, Z.pow2_bits_eqb by lia;
    destruct (Z.eqb_spec k n) as [-> | _];
    rewrite ?E, ?andb_false_r; reflexivity.
Qed.

Lemma land_DGST (d : Z) (a : digest_t) :
  Z.land d (DGST a) = 0 \/ Z.land d (DGST a) = DGST a.
Proof.
  destruct (DGST_bit a) as (k & Hk & ->). now apply land_pow2.
Qed.

Lemma DGST_pos (a : digest_t) : 0 < DGST a.
Proof.
  destruct (DGST_bit a) as (k & Hk & ->). now apply Z.pow_pos_nonneg.
Qed.

Lemma has_true (a : digest_t) (d : Z) :
  has a d = true -> Z.land d (DGST a) = DGST a /\ Z.land d (DGST a) <> 0.
Proof.
  intros H. pose proof (DGST_pos a).
  assert (Z.land d (DGST a) <> 0).
  { destruct a; unfold has, HAS_MD5, HAS_SHA1, HAS_SHA256, HAS_SHA512 in H;
      simpl; apply negb_true_iff, Z.eqb_neq in H; exact H. }
  destruct (land_DGST d a); [contradiction | auto].
Qed.

Lemma has_false (a : digest_t) (d : Z) :
  has a d = false -> Z.land d (DGST a) = 0.
Proof.
  destruct a; unfold has, HAS_MD5, HAS_SHA1, HAS_SHA256, HAS_SHA512;
    simpl; intros H; apply negb_false_iff, Z.eqb_eq in H; exact H.
Qed.

Lemma lor_DGST_nonzero (a : digest_t) (x : Z) : Z.lor x (DGST a) <> 0.
Proof.
  pose proof (DGST_pos a). rewrite Z.lor_eq_0_iff. lia.
Qed.

Lemma has_spec (a : digest_t) (d : Z) :
  has a d = negb (Z.land d (DGST a) =? 0).
Proof. destruct a; reflexivity. Qed.

Lemma has_self (a : digest_t) : has a (DGST a) = true.
Proof.
  rewrite has_spec, Z.land_diag. pose proof (DGST_pos a).
  apply negb_true_iff, Z.eqb_neq. lia.
Qed.

Lemma has_lor (a : digest_t) (x y : Z) :
  has a x = true \/ has a y = true -> has a (Z.lor x y) = true.
Proof.
  rewrite !has_spec, Z.land_lor_distr_l, !negb_true_iff, !Z.eqb_neq,
    Z.lor_eq_0_iff. tauto.
Qed.

(** C2. The digest type [build_index] creates the index with is the
    lowest-ordinal algorithm of the mask, in the order MD5, SHA1,
    SHA256, SHA512; with the empty mask [build_index] ends the run
    with a failure status before the index exists. *)
Theorem build_index_lowest_ordinal (digests : Z) (paths : list string) :
  (forall a,
      has a digests = true ->
      (forall b, has b digests = true -> (ordinal a <= ordinal b)%nat) ->
      build_index_type digests = Some (DGST a) /\
      exists t r,
        build_index digests paths = (IndexCreate (DGST a) :: t, r)) /\
  build_index 0 paths
  = ([], Exit EXIT_FAILURE "corrput parsing of digest types from inputs") /\
  EXIT_FAILURE <> 0.
Proof.
  split; [| split; [| discriminate]].
  - intros a Ha Hmin.
    assert (Hlow : forall b, (ordinal b < ordinal a)%nat ->
                             Z.land digests (DGST b) = 0).
    { intros b Hb. apply has_false. destruct (has b digests) eqn:E; auto.
      apply Hmin in E. lia. }
    destruct (has_true _ _ Ha) as [Heq Hne].
    assert (Hty : build_index_type digests = Some (DGST a)).
    { unfold build_index_type.
      pose proof (Hlow MD5) as L0. pose proof (Hlow SHA1) as L1.
      pose proof (Hlow SHA256) as L2.
      destruct a; simpl in *; rewrite ?L0, ?L1, ?L2 by lia; simpl;
        match goal with
        | |- context [Z.land digests ?c =? 0] =>
            destruct (Z.eqb_spec (Z.land digests c) 0);
              [contradiction | simpl; now rewrite Heq]
        end. }
    split; [exact Hty |].
    unfold build_index. rewrite Hty.
    destruct (index_create w (DGST a)); simpl.
    + destruct (build_index_read _ paths) as [t r]. eauto.
    + eauto.
  - unfold build_index, build_index_type. rewrite !Z.land_0_l. reflexivity.
Qed.

(** The mask [DGST_ALL] is the union of the four bits. *)
Hypothesis DGST_ALL_union :
  DGST_ALL
  = Z.lor (Z.lor (Z.lor DGST_MD5 DGST_SHA1) DGST_SHA256) DGST_SHA512.

(** C5. With the "all" flag the mask holds the four algorithms;
    without it the mask is the union of the bits of the algorithm
    flags that are set; with no flag at all it is MD5 alone. *)
Theorem parse_digests_mask (info : cmdline_info) :
  (all_flag info = true ->
   parse_digests info
   = Z.lor (Z.lor (Z.lor DGST_MD5 DGST_SHA1) DGST_SHA256) DGST_SHA512 /\
   forall a, has a (parse_digests info) = true) /\
  (all_flag info = false ->
   md5_flag info || sha1_flag info || sha256_flag info
     || sha512_flag info = true ->
   parse_digests info
   = Z.lor (Z.lor (Z.lor (if md5_flag info then DGST_MD5 else 0)
                         (if sha1_flag info then DGST_SHA1 else 0))
                  (if sha256_flag info then DGST_SHA256 else 0))
           (if sha512_flag info then DGST_SHA512 else 0)) /\
  (all_flag info = false -> md5_flag info = false ->
   sha1_flag info = false -> sha256_flag info = false ->
   sha512_flag info = false ->
   parse_digests info = DGST_MD5).
Proof.
  unfold parse_digests. split; [| split].
  - intros ->. split; [exact DGST_ALL_union |].
    intros a. rewrite DGST_ALL_union.
    destruct a;
      repeat first [ exact (has_self _)
                   | apply has_lor; first [ right; exact (has_self _) | left ] ].
  - intros -> Hany.
    pose proof (lor_DGST_nonzero MD5) as P0.
    pose proof (lor_DGST_nonzero SHA1) as P1.
    pose proof (lor_DGST_nonzero SHA256) as P2.
    pose proof (lor_DGST_nonzero SHA512) as P3. simpl in P0, P1, P2, P3.
    destruct (md5_flag info), (sha1_flag info), (sha256_flag info),
      (sha512_flag info); try discriminate Hany; rewrite ?Z.lor_0_r;
      match goal with
      | |- (if ?x =? 0 then _ else _) = _ =>
          destruct (Z.eqb_spec x 0) as [E | E]; [| reflexivity]
      end; exfalso; revert E; rewrite ?Z.lor_0_l;
      solve [apply P0 | apply P1 | apply P2 | apply P3
             | apply (P0 0) | apply (P1 0) | apply (P2 0) | apply (P3 0)].
  - intros -> -> -> -> ->. reflexivity.
Qed.

End Masks.

(** ** Owner, group and cache size *)

Lemma parse_owner_returns (info : cmdline_info) :
  exists t r, parse_owner info = (t, Done r).
Proof.
  unfold parse_owner.
  destruct (if owner_given info then _ else _) as [user |];
    [destruct (getpwnam w user) |]; do 2 eexists; reflexivity.
Qed.

Lemma parse_group_returns (info : cmdline_info) :
  exists t r, parse_group info = (t, Done r).
Proof.
  unfold parse_group.
  destruct (if group_given info then _ else _) as [name |];
    [destruct (getgrnam w name) |]; do 2 eexists; reflexivity.
Qed.

(** C6. Without a name from flag or environment the owner and the group
    are the effective uid and gid; a name the user or group database
    does not know gives a warning and the effective uid or gid, and the
    run goes on. *)
Theorem owner_group_fallback (info : cmdline_info) :
  (owner_given info = false -> getenv w ENV_OWNER = None ->
   parse_owner info = ([], Done (geteuid w, None))) /\
  (group_given info = false -> getenv w ENV_GROUP = None ->
   parse_group info = ([], Done (getegid w, None))) /\
  (owner_given info = true -> getpwnam w (owner_arg info) = None ->
   parse_owner info
   = ([Warn ("uid lookup for '" +++ owner_arg info
             +++ "' failed defaulting to euid")],
      Done (geteuid w, Some (owner_arg info)))) /\
  (forall user, owner_given info = false ->
   getenv w ENV_OWNER = Some user -> getpwnam w user = None ->
   parse_owner info
   = ([Warn ("uid lookup for '" +++ user +++ "' failed defaulting to euid")],
      Done (geteuid w, Some user))) /\
  (group_given info = true -> getgrnam w (group_arg info) = None ->
   parse_group info
   = ([Warn ("gid lookup for '" +++ group_arg info
             +++ "' failed defaulting to egid")],
      Done (getegid w, Some (group_arg info)))) /\
  (forall name, group_given info = false ->
   getenv w ENV_GROUP = Some name -> getgrnam w name = None ->
   parse_group info
   = ([Warn ("gid lookup for '" +++ name +++ "' failed defaulting to egid")],
      Done (getegid w, Some name))).
Proof.
  unfold parse_owner, parse_group. repeat split.
  - intros -> ->. reflexivity.
  - intros -> ->. reflexivity.
  - intros -> ->. reflexivity.
  - intros user -> -> ->. reflexivity.
  - intros -> ->. reflexivity.
  - intros name -> -> ->. reflexivity.
Qed.

(** C7. A flag that is given decides the owner name, the group name and
    the cache size, whatever the environment holds; the environment
    variable decides when the flag is not given. *)
Theorem flag_overrides_environment (info : cmdline_info) :
  (owner_given info = true ->
   outcome (parse_owner info)
   = Done (match getpwnam w (owner_arg info) with
           | Some pw_uid => pw_uid
           | None => geteuid w
           end, Some (owner_arg info))) /\
  (forall env, owner_given info = false ->
   getenv w ENV_OWNER = Some env ->
   outcome (parse_owner info)
   = Done (match getpwnam w env with
           | Some pw_uid => pw_uid
           | None => geteuid w
           end, Some env)) /\
  (group_given info = true ->
   outcome (parse_group info)
   = Done (match getgrnam w (group_arg info) with
           | Some gr_gid => gr_gid
           | None => getegid w
           end, Some (group_arg info))) /\
  (forall env, group_given info = false ->
   getenv w ENV_GROUP = Some env ->
   outcome (parse_group info)
   = Done (match getgrnam w env with
           | Some gr_gid => gr_gid
           | None => getegid w
           end, Some env)) /\
  (cache_size_given info = true ->
   parse_cache_size info = parse_cache_size_val (cache_size_arg info)) /\
  (forall env, cache_size_given info = false ->
   getenv w ENV_CACHE_SIZE = Some env ->
   parse_cache_size info = parse_cache_size_val env).
Proof.
  unfold parse_owner, parse_group, parse_cache_size. repeat split.
  - intros ->. destruct (getpwnam w _); reflexivity.
  - intros env -> ->. destruct (getpwnam w _); reflexivity.
  - intros ->. destruct (getgrnam w _); reflexivity.
  - intros env -> ->. destruct (getgrnam w _); reflexivity.
  - intros ->. reflexivity.
  - intros env -> ->. reflexivity.
Qed.

(** Without flag and variable the cache size is 32768. *)
Lemma parse_cache_size_default (info : cmdline_info) :
  cache_size_given info = false -> getenv w ENV_CACHE_SIZE = None ->
  parse_cache_size info = ([], Done 32768).
Proof. unfold parse_cache_size. intros -> ->. reflexivity. Qed.

(** The loop of [parse_outputstream] ends at the first name that can be
    created. *)
Lemma open_output_creates (fuel : nat) (name : string) (i : Z) :
  open_excl w name = None ->
  open_output (S fuel) name i = ([Create name], Done name).
Proof. intros H. simpl. rewrite H. reflexivity. Qed.

Lemma open_output_next (fuel : nat) (name : string) (i : Z) :
  open_excl w name = Some EEXIST ->
  open_output (S fuel) name i
  = open_output fuel ("dcp(" +++ fmt_zu (to_size_t (i + 1)) +++ ").out")
      (to_size_t (i + 1)).
Proof. intros H. simpl. rewrite H. reflexivity. Qed.

(** ** Operands *)

Lemma to_int_small (z : Z) : 0 <= z <= INT_MAX -> to_int z = z.
Proof.
  unfold to_int, INT_MAX. intros H.
  rewrite Z.mod_small by lia. lia.
Qed.

Lemma nth_last (l : list string) (d x : string) :
  nth (List.length l) (l ++ [d]) x = d.
Proof. rewrite app_nth2, Nat.sub_diag by lia. reflexivity. Qed.

Lemma firstn_front (l r : list string) :
  firstn (List.length l) (l ++ r) = l.
Proof.
  rewrite firstn_app, Nat.sub_diag, firstn_all. simpl. apply app_nil_r.
Qed.

(** C10. Without operands, or with one, [mainopts_parse] ends the run
    with a failure status and has done nothing before; with two or more
    the last operand is the destination and the ones before it are the
    sources, and such a run does return when the output file opens and
    no cache size is supplied. *)
Theorem mainopts_parse_operands (fuel : nat) (info : cmdline_info) :
  (inputs info = [] ->
   mainopts_parse fuel info
   = ([], Exit EXIT_FAILURE "missing file operand")) /\
  (forall x, inputs info = [x] ->
   mainopts_parse fuel info
   = ([], Exit EXIT_FAILURE
            ("missing destination file operand after '" +++ x +++ "'"))) /\
  (forall srcs d,
      inputs info = srcs ++ [d] -> srcs <> [] ->
      inputs_num info <= INT_MAX ->
      (forall opts,
          outcome (mainopts_parse fuel info) = Done opts ->
          Opts.dest opts = d /\ sources opts = srcs) /\
      (output_given info = true -> fopen_w w (output_arg info) = true ->
       cache_size_given info = false -> getenv w ENV_CACHE_SIZE = None ->
       exists t opts, mainopts_parse fuel info = (t, Done opts))).
Proof.
  split; [| split].
  - unfold mainopts_parse, inputs_num. intros ->. reflexivity.
  - unfold mainopts_parse, inputs_num. intros x ->. reflexivity.
  - intros srcs d Hin Hne Hmax.
    assert (Hlen : inputs_num info = Z.of_nat (List.length srcs) + 1).
    { unfold inputs_num. rewrite Hin, length_app. simpl. lia. }
    assert (Hpos : 1 <= Z.of_nat (List.length srcs)).
    { destruct srcs; [contradiction | simpl; lia]. }
    assert (Hfc : to_int (inputs_num info) - 1 = Z.of_nat (List.length srcs)).
    { rewrite to_int_small by lia. lia. }
    unfold mainopts_parse. rewrite Hfc.
    destruct (Z.ltb_spec (Z.of_nat (List.length srcs)) 0) as [L | _]; [lia |].
    destruct (Z.eqb_spec (Z.of_nat (List.length srcs)) 0) as [L | _]; [lia |].
    split.
    + intros opts H.
      apply outcome_bind_done in H. destruct H as ([out name] & _ & H).
      apply outcome_bind_done in H. destruct H as ([uid user] & _ & H).
      apply outcome_bind_done in H. destruct H as ([gid group] & _ & H).
      apply outcome_bind_done in H. destruct H as (size & _ & H).
      simpl in H. injection H as <-. unfold sources. simpl.
      rewrite Hin, Nat2Z.id. split; [apply nth_last | apply firstn_front].
    + intros Hout Hopen Hgiven Henv.
      unfold parse_outputstream. rewrite Hout, Hopen.
      rewrite (parse_cache_size_default info Hgiven Henv).
      destruct (parse_owner_returns info) as (t1 & [uid user] & ->).
      destruct (parse_group_returns info) as (t2 & [gid group] & ->).
      simpl. eauto.
Qed.

(** ** Traces *)

Lemma trace_bind_eq {A B} (m : M A) (f : A -> M B) :
  trace (bind m f)
  = trace m ++ match outcome m with
               | Done a => trace (f a)
               | _ => []
               end.
Proof.
  unfold bind, trace, outcome. destruct m as [t [a | s msg | ]]; simpl;
    rewrite ?app_nil_r; auto.
  destruct (f a); reflexivity.
Qed.

Lemma outcome_bind_eq {A B} (m : M A) (f : A -> M B) :
  outcome (bind m f)
  = match outcome m with
    | Done a => outcome (f a)
    | Exit s msg => Exit s msg
    | Spin => Spin
    end.
Proof.
  unfold bind, outcome. destruct m as [t [a | s msg | ]]; simpl; auto.
  destruct (f a); reflexivity.
Qed.

Lemma dcp_calls_app (t1 t2 : list event) :
  dcp_calls (t1 ++ t2) = dcp_calls t1 ++ dcp_calls t2.
Proof.
  induction t1 as [| e t1 IH]; simpl; auto.
  destruct e; simpl; rewrite ?IH; reflexivity.
Qed.

Lemma index_only_quiet (t : list event) :
  Forall (fun e => index_only e = true) t ->
  dcp_calls t = [] /\ header t = [].
Proof.
  induction 1 as [| e t He _ IH]; simpl; auto.
  destruct e; simpl in *; try discriminate; exact IH.
Qed.

Lemma build_index_read_trace (paths : list string) (idx : index_t) :
  Forall (fun e => index_only e = true) (trace (build_index_read idx paths)).
Proof.
  revert idx. induction paths as [| path paths IH]; intros idx;
    cbn [build_index_read].
  - constructor.
  - rewrite trace_bind_eq. simpl. constructor; [reflexivity |].
    destruct (io_index_read w idx path); [apply IH | constructor].
Qed.

Lemma build_index_trace (digests : Z) (paths : list string) :
  Forall (fun e => index_only e = true) (trace (build_index digests paths)).
Proof.
  unfold build_index. destruct (build_index_type digests) as [type |].
  - rewrite trace_bind_eq. simpl. constructor; [reflexivity |].
    destruct (index_create w type);
      [apply build_index_read_trace | constructor].
  - constructor.
Qed.

(** A manifest that cannot be read ends [build_index_read], at that
    manifest or at one before it. *)
Lemma build_index_read_fails (paths : list string) (path : string) :
  In path paths ->
  (forall idx, io_index_read w idx path = false) ->
  forall idx, exists msg,
    outcome (build_index_read idx paths) = Exit EXIT_FAILURE msg.
Proof.
  intros Hin Hbad. induction paths as [| p paths IH]; [contradiction |].
  intros idx. cbn [build_index_read]. rewrite outcome_bind_eq. simpl.
  destruct (io_index_read w idx p) eqn:E.
  - destruct Hin as [-> | Hin]; [rewrite Hbad in E; discriminate |].
    apply IH, Hin.
  - eexists. reflexivity.
Qed.

Lemma print_metadata_quiet out version argv opts digests :
  dcp_calls (trace (print_metadata out version argv opts digests)) = [].
Proof.
  unfold print_metadata. destruct out as [out |]; [| reflexivity].
  destruct (getcwd w), (Opts.username opts), (Opts.groupname opts);
    reflexivity.
Qed.

Ltac returns_quiet := do 2 eexists; split; reflexivity.

Lemma prepare_returns (files : list string) (count : Z) (dest : string) :
  exists t r,
    prepare files count dest = (t, Done (r, new_dest files count dest)) /\
    dcp_calls t = [].
Proof.
  unfold prepare, new_dest, is_dir, nested, ends_in_slash.
  destruct (count =? 1); simpl; [| returns_quiet].
  destruct (stat w (nth 0 files EmptyString)) as [m | e]; simpl;
    [| returns_quiet].
  destruct (S_ISDIR m); simpl; [| returns_quiet].
  destruct (stat w dest) as [m' | e']; simpl.
  - destruct (S_ISDIR m'); simpl; [| returns_quiet].
    destruct (last_char dest) as [c |]; [destruct (Ascii.eqb c "/") |];
      returns_quiet.
  - destruct (e' =? ENOENT); simpl; returns_quiet.
Qed.

(** The destination the copy engine is started with. *)
Lemma dcp_main_calls (opts : mainopts) (argv : list string) :
  dcp_calls (trace (dcp_main opts argv)) = [] \/
  exists idx,
    dcp_calls (trace (dcp_main opts argv))
    = [(match new_dest (Opts.files opts) (Opts.filecount opts)
                (Opts.dest opts) with
        | Some d => d
        | None => Opts.dest opts
        end,
        {| DcpOpts.bufsize := Opts.cache_size opts;
           DcpOpts.digests := Opts.digests opts;
           DcpOpts.uid := Opts.uid opts;
           DcpOpts.gid := Opts.gid opts;
           DcpOpts.index := idx;
           DcpOpts.verbose := Opts.verbose_mode opts |})].
Proof.
  unfold dcp_main.
  match goal with
  | |- context [bind ?m _] => set (index_phase := m)
  end.
  assert (Hq : dcp_calls (trace index_phase) = []).
  { subst index_phase. destruct (Opts.inputs opts) as [paths |];
      [| reflexivity].
    destruct (io_index_digest_peek w paths _) as [d |]; [| reflexivity].
    rewrite trace_bind_eq, dcp_calls_app.
    destruct (index_only_quiet _ (build_index_trace d paths)) as [-> _].
    destruct (outcome (build_index d paths)); reflexivity. }
  rewrite trace_bind_eq, dcp_calls_app, Hq. cbn [app].
  destruct (outcome index_phase) as [[idx digests] | |]; auto.
  rewrite trace_bind_eq, dcp_calls_app, print_metadata_quiet. cbn [app].
  destruct (outcome (print_metadata _ _ _ _ _)); auto.
  rewrite trace_bind_eq, dcp_calls_app.
  destruct (io_dcp_processor_ctx_create w _); cbn; auto.
  destruct (prepare_returns (Opts.files opts) (Opts.filecount opts)
              (Opts.dest opts)) as (t & r & Hp & Hpq).
  rewrite Hp, trace_bind_eq, dcp_calls_app. cbn [trace outcome fst snd].
  rewrite Hpq. destruct (r =? 0); cbn; eauto.
Qed.

(** ** Destination *)

(** X22. With one source operand that is a directory and a destination
    that exists as a directory, [prepare] hands back the destination,
    a ['/'] unless the destination ends in one, and [basename] of the
    operand, which is what follows its last ['/'] and is empty for an
    operand that ends in one; in every other case it hands back
    nothing, and succeeds with several operands, with a source that is
    no directory and with a destination that does not exist.
    [dcp_main] starts the copy engine at most once, and on no other
    path than the one handed back, or the destination as given when
    nothing was handed back. *)
Theorem prepare_nesting (files : list string) (count : Z) (dest : string) :
  let src := nth 0 files EmptyString in
  (count = 1 -> is_dir src = true -> is_dir dest = true ->
   prepare files count dest
   = ([], Done (0, Some (dest +++ (if ends_in_slash dest
                                   then EmptyString else "/"%string)
                              +++ basename src)))) /\
  (count <> 1 \/ is_dir src = false \/ is_dir dest = false ->
   exists t r, prepare files count dest = (t, Done (r, None))) /\
  (count <> 1 -> prepare files count dest = ([], Done (0, None))) /\
  (forall st_mode, count = 1 ->
   stat w src = StatOk st_mode -> S_ISDIR st_mode = false ->
   prepare files count dest = ([], Done (0, None))) /\
  (count = 1 -> is_dir src = true -> stat w dest = StatErr ENOENT ->
   prepare files count dest = ([], Done (0, None))) /\
  (forall opts argv,
      Opts.files opts = files -> Opts.filecount opts = count ->
      Opts.dest opts = dest ->
      (List.length (dcp_calls (trace (dcp_main opts argv))) <= 1)%nat /\
      forall d o,
        In (d, o) (dcp_calls (trace (dcp_main opts argv))) ->
        d = if (count =? 1) && is_dir src && is_dir dest
            then nested dest src else dest).
Proof.
  intros src. subst src. repeat split.
  - intros -> Hs Hd. unfold prepare, is_dir, ends_in_slash in *. simpl.
    destruct (stat w (nth 0 files EmptyString)) as [m | e];
      [| discriminate]. rewrite Hs.
    destruct (stat w dest) as [m' | e']; [| discriminate]. rewrite Hd.
    destruct (last_char dest) as [c |]; [destruct (Ascii.eqb c "/") |];
      reflexivity.
  - intros H.
    destruct (prepare_returns files count dest) as (t & r & Hp & _).
    exists t, r. rewrite Hp. unfold new_dest.
    replace ((count =? 1) && is_dir (nth 0 files EmptyString) && is_dir dest)
      with false; [reflexivity |].
    symmetry. destruct H as [H | [H | H]].
    + apply Z.eqb_neq in H. rewrite H. reflexivity.
    + rewrite H. apply andb_false_iff. left. apply andb_false_r.
    + rewrite H. apply andb_false_r.
  - intros H. unfold prepare. apply Z.eqb_neq in H. rewrite H. reflexivity.
  - intros m -> Hs Hm. unfold prepare. simpl. rewrite Hs, Hm. reflexivity.
  - intros -> Hs Hd. unfold prepare, is_dir in *. simpl.
    destruct (stat w (nth 0 files EmptyString)) as [m | e];
      [| discriminate]. rewrite Hs, Hd. reflexivity.
  - destruct (dcp_main_calls opts argv) as [-> | (idx & ->)]; simpl; lia.
  - intros d o. subst files count dest.
    destruct (dcp_main_calls opts argv) as [-> | (idx & ->)]; simpl;
      [contradiction |].
    intros [H | []]. injection H as <- _. unfold new_dest.
    destruct (_ && _); reflexivity.
Qed.

(** ** Prior manifests *)

(** A manifest that the index, as it is when the loop comes to that
    manifest, does not take ends [build_index_read]. *)
Lemma build_index_read_fails_at (pre : list string) :
  forall idx path post,
    io_index_read w {| idx_type := idx_type idx;
                       idx_read := idx_read idx ++ pre |} path = false ->
    exists msg,
      outcome (build_index_read idx (pre ++ path :: post))
      = Exit EXIT_FAILURE msg.
Proof.
  induction pre as [| p pre IH]; intros idx path post Hbad;
    cbn [app build_index_read]; rewrite outcome_bind_eq;
    cbn [emit outcome snd].
  - rewrite app_nil_r in Hbad. destruct idx as [type rd]. cbn in Hbad.
    rewrite Hbad. eexists. reflexivity.
  - destruct (io_index_read w idx p); [| eexists; reflexivity].
    apply IH. cbn [idx_type idx_read]. rewrite <- app_assoc. exact Hbad.
Qed.

(** C8. When the peek at the prior manifests fails, when it yields a mask
    with none of the four algorithms, when the index cannot be created,
    or when one of the manifests cannot be read into the index, be it
    into any index or into the index as the manifests before it have
    left it, the run ends with a failure status; by then only the index
    was touched: no header line written, no source operand handed to
    the copy engine. *)
Theorem prior_manifest_failure_is_fatal
    (opts : mainopts) (argv : list string) (paths : list string) :
  Opts.inputs opts = Some paths ->
  io_index_digest_peek w paths (Opts.digests opts) = None \/
  (exists d, io_index_digest_peek w paths (Opts.digests opts) = Some d /\
             build_index_type d = None) \/
  (exists path, In path paths /\
                forall idx, io_index_read w idx path = false) \/
  (exists d type,
      io_index_digest_peek w paths (Opts.digests opts) = Some d /\
      build_index_type d = Some type /\ index_create w type = false) \/
  (exists d type pre path post,
      io_index_digest_peek w paths (Opts.digests opts) = Some d /\
      build_index_type d = Some type /\
      paths = pre ++ path :: post /\
      io_index_read w {| idx_type := type; idx_read := pre |} path = false) ->
  (exists msg, outcome (dcp_main opts argv) = Exit EXIT_FAILURE msg) /\
  EXIT_FAILURE <> 0 /\
  Forall (fun e => index_only e = true) (trace (dcp_main opts argv)) /\
  header (trace (dcp_main opts argv)) = [] /\
  dcp_calls (trace (dcp_main opts argv)) = [].
Proof.
  intros Hin Hbad.
  assert (H : (exists msg, outcome (dcp_main opts argv)
                           = Exit EXIT_FAILURE msg) /\
              Forall (fun e => index_only e = true)
                (trace (dcp_main opts argv))).
  { unfold dcp_main. rewrite Hin, outcome_bind_eq, trace_bind_eq.
    destruct (io_index_digest_peek w paths (Opts.digests opts)) as [d |] eqn:Hpeek.
    - rewrite outcome_bind_eq, trace_bind_eq.
      assert (Hex : exists msg,
                 outcome (build_index d paths) = Exit EXIT_FAILURE msg).
      { unfold build_index.
        destruct Hbad as [Hbad | [(d' & Hd' & Hty) | [(path & Hp & Hr)
                         | [(d' & type & Hd' & Hty & Hcr)
                           | (d' & type & pre & path & post & Hd' & Hty
                              & Hsplit & Hr)]]]];
          [discriminate | | | |].
        - injection Hd' as <-. rewrite Hty. eexists. reflexivity.
        - destruct (build_index_type d) as [type |];
            [| eexists; reflexivity].
          rewrite outcome_bind_eq. cbn.
          destruct (index_create w type); [| eexists; reflexivity].
          apply (build_index_read_fails paths path Hp Hr).
        - injection Hd' as <-. rewrite Hty, outcome_bind_eq. cbn.
          rewrite Hcr. eexists. reflexivity.
        - injection Hd' as <-. rewrite Hty, outcome_bind_eq. cbn.
          destruct (index_create w type); [| eexists; reflexivity].
          subst paths. apply build_index_read_fails_at. exact Hr. }
      destruct Hex as (msg & Hex). rewrite Hex, !app_nil_r.
      split; [eauto | apply build_index_trace].
    - cbn. split; [eauto | constructor]. }
  destruct H as [Hexit Htrace].
  destruct (index_only_quiet _ Htrace) as [Hc Hh].
  repeat split; auto. discriminate.
Qed.

(** ** Manifest header *)

Ltac solve_in :=
  simpl; repeat (first [ left; reflexivity | right ]).

(** C9, as amended.  The header holds the generator tag, the version,
    the time, the command line, the names of the algorithms in use, the
    host, the current directory when [getcwd] gives one, the sources,
    the destination and the output path, and the owner and group names
    exactly when they were supplied, each handed to the manifest writer
    as one line of a key and its value.  Current directory, sources,
    destination and output path are the lines written as JSON arrays,
    and the only ones; the command line and the algorithm names are
    written as strings joined by [" "] and [", "]. *)
Theorem print_metadata_header
    (out : string) (argv : list string) (opts : mainopts) (digests : Z) :
  let h := header (trace (print_metadata (Some out) VERSION argv opts
                            digests)) in
  In (io_metadata_put "File Generated by dcp DO NOT EDIT" None) h /\
  In (io_metadata_put "version    " (Some VERSION)) h /\
  In (io_metadata_put "timestamp  " (Some (chop (ctime_now w)))) h /\
  In (io_metadata_put_strs "command    " argv " ") h /\
  In (io_metadata_put_strs "digests    "
        (map digest_name (in_use digests)) ", ") h /\
  In (io_metadata_put "host       " (Some (gethostname w))) h /\
  (forall cwd, getcwd w = Some cwd ->
               In (io_metadata_put_json "cwd        " [cwd]) h) /\
  In (io_metadata_put_json "sources    " (sources opts)) h /\
  In (io_metadata_put_json "destination" [Opts.dest opts]) h /\
  In (io_metadata_put_json "output     " [Opts.outfilename opts]) h /\
  (forall name, In (io_metadata_put "data_owner " (Some name)) h
                <-> Opts.username opts = Some name) /\
  (forall name, In (io_metadata_put "data_group " (Some name)) h
                <-> Opts.groupname opts = Some name) /\
  (forall key strs,
      In (io_metadata_put_json key strs) h ->
      In key ["cwd        "; "sources    "; "destination"; "output     "]%string).
Proof.
  intros h. subst h. unfold print_metadata, sources.
  assert (Hnames :
            (if HAS_MD5 digests then ["md5"%string] else [])
              ++ (if HAS_SHA1 digests then ["sha1"%string] else [])
              ++ (if HAS_SHA256 digests then ["sha256"%string] else [])
              ++ (if HAS_SHA512 digests then ["sha512"%string] else [])
            = map digest_name (in_use digests)).
  { unfold in_use, has. simpl.
    destruct (HAS_MD5 digests), (HAS_SHA1 digests), (HAS_SHA256 digests),
      (HAS_SHA512 digests); reflexivity. }
  rewrite Hnames. clear Hnames.
  generalize (map digest_name (in_use digests)) as dgsts. intros dgsts.
  destruct (getcwd w) as [cwd |], (Opts.username opts) as [user |],
    (Opts.groupname opts) as [group |]; cbn;
    repeat match goal with
      | |- _ /\ _ => split
      end;
    try solve [solve_in];
    try solve [intros c Hc; first [discriminate Hc
                                   | injection Hc as <-; solve_in]];
    try solve [intros name; split;
               [ intros H;
                 repeat match goal with
                   | H : _ \/ _ |- _ => destruct H as [H | H]
                   end;
                 solve [discriminate H | contradiction
                        | injection H as <-; reflexivity]
               | intros H; first [discriminate H
                                  | injection H as <-; solve_in] ]];
    intros key strs H;
    repeat match goal with
      | H : _ \/ _ |- _ => destruct H as [H | H]
      end;
    solve [discriminate H | contradiction
           | injection H as <- _; solve_in].
Qed.


(* ---------------------------------------------------------------- *)
(** * Further properties *)

(** ** The output file *)

Lemma to_size_t_small (z : Z) : 0 <= z < 2 ^ 64 -> to_size_t z = z.
Proof. intros H. unfold to_size_t. apply Z.mod_small. exact H. Qed.

Lemma to_size_t_range (z : Z) : 0 <= to_size_t z < 2 ^ 64.
Proof. unfold to_size_t. apply Z.mod_pos_bound. reflexivity. Qed.

Lemma auto_name_next (k : nat) :
  Z.of_nat (S k) < 2 ^ 64 ->
  ("dcp(" +++ fmt_zu (to_size_t (Z.of_nat k + 1)) +++ ").out")%string
  = auto_name (S k).
Proof.
  intros H. rewrite to_size_t_small by lia.
  replace (Z.of_nat k + 1) with (Z.of_nat (S k)) by lia. reflexivity.
Qed.

(** The loop walks the names in order while they exist. *)
Lemma open_output_skips (n : nat) :
  forall (k fuel : nat),
    Z.of_nat (k + n) < 2 ^ 64 ->
    (forall j, (k <= j < k + n)%nat ->
               open_excl w (auto_name j) = Some EEXIST) ->
    open_output (n + fuel) (auto_name k) (Z.of_nat k)
    = open_output fuel (auto_name (k + n)) (Z.of_nat (k + n)).
Proof.
  induction n as [| n IH]; intros k fuel Hmax Hbusy.
  - rewrite Nat.add_0_r. reflexivity.
  - change (S n + fuel)%nat with (S (n + fuel)).
    rewrite open_output_next by (apply Hbusy; lia).
    rewrite auto_name_next, to_size_t_small by lia.
    replace (Z.of_nat k + 1) with (Z.of_nat (S k)) by lia.
    rewrite IH.
    + replace (S k + n)%nat with (k + S n)%nat by lia. reflexivity.
    + replace (S k + n)%nat with (k + S n)%nat by lia. exact Hmax.
    + intros j Hj. apply Hbusy. lia.
Qed.

(** What a finished loop has done. *)
Lemma open_output_done (fuel : nat) :
  forall name i t r,
    open_output fuel name i = (t, Done r) ->
    t = [Create r] /\ open_excl w r = None /\
    (r = name \/
     exists j, 0 <= j < 2 ^ 64 /\ r = "dcp(" +++ fmt_zu j +++ ").out").
Proof.
  induction fuel as [| fuel IH]; intros name i t r; simpl.
  - discriminate.
  - destruct (open_excl w name) as [errno |] eqn:Hopen.
    + destruct (errno =? EEXIST); [| discriminate].
      intros H. apply IH in H. destruct H as (Ht & Hr & Hname).
      split; [exact Ht |]. split; [exact Hr |]. right.
      destruct Hname as [-> | Hname]; [| exact Hname].
      exists (to_size_t (i + 1)). split; [apply to_size_t_range | reflexivity].
    + intros H. injection H as <- <-. auto.
Qed.

(** X1. Without [--output], the file [parse_outputstream] writes to is one
    it has created itself with [O_EXCL], so it did not exist before: it is
    [dcp.out] or a numbered [dcp(i).out], it is the only file created, and
    the stream and the recorded name are that file. *)
Theorem parse_outputstream_exclusive
    (fuel : nat) (info : cmdline_info) (t : list event)
    (out : option string) (name : string) :
  output_given info = false ->
  parse_outputstream fuel info = (t, Done (out, name)) ->
  out = Some name /\ t = [Create name] /\ open_excl w name = None /\
  (name = "dcp.out"%string \/
   exists i, 0 <= i < 2 ^ 64 /\ name = "dcp(" +++ fmt_zu i +++ ").out").
Proof.
  unfold parse_outputstream. intros -> H.
  destruct (open_output fuel "dcp.out" 0) as [t1 [r | s msg | ]] eqn:Hloop;
    try discriminate H.
  apply open_output_done in Hloop. destruct Hloop as (-> & Hr & Hname).
  simpl in H. destruct (fdopen_a w r); [| discriminate H].
  injection H as <- <- <-. auto.
Qed.

(** X2. Without [--output], when [dcp.out] and the first [n - 1] numbered
    names exist and the next name can be created, that name is the output
    file, whatever bound above [n] the loop is given. *)
Theorem parse_outputstream_first_free
    (n fuel : nat) (info : cmdline_info) :
  output_given info = false ->
  Z.of_nat n < 2 ^ 64 ->
  (forall k, (k < n)%nat -> open_excl w (auto_name k) = Some EEXIST) ->
  open_excl w (auto_name n) = None ->
  fdopen_a w (auto_name n) = true ->
  (n < fuel)%nat ->
  parse_outputstream fuel info
  = ([Create (auto_name n)], Done (Some (auto_name n), auto_name n)).
Proof.
  intros Hout Hmax Hbusy Hfree Hstream Hfuel.
  unfold parse_outputstream. rewrite Hout.
  change (open_output fuel "dcp.out" 0)
    with (open_output fuel (auto_name 0) (Z.of_nat 0)).
  replace fuel with (n + S (fuel - S n))%nat by lia.
  rewrite (open_output_skips n 0 (S (fuel - S n)));
    [| exact Hmax | intros j Hj; apply Hbusy; lia].
  cbn [Nat.add open_output].
  rewrite Hfree. simpl. rewrite Hstream. reflexivity.
Qed.

(** X3. Without [--output], when the first name that does not exist
    cannot be created either, the run ends with a failure status naming
    that file, and no file has been created. *)
Theorem parse_outputstream_cannot_create
    (n fuel : nat) (info : cmdline_info) (errno : Z) :
  output_given info = false ->
  Z.of_nat n < 2 ^ 64 ->
  (forall k, (k < n)%nat -> open_excl w (auto_name k) = Some EEXIST) ->
  open_excl w (auto_name n) = Some errno ->
  errno <> EEXIST ->
  (n < fuel)%nat ->
  parse_outputstream fuel info
  = ([], Exit EXIT_FAILURE
           ("cannot create output file '" +++ auto_name n +++ "'")).
Proof.
  intros Hout Hmax Hbusy Herr Hne Hfuel.
  unfold parse_outputstream. rewrite Hout.
  change (open_output fuel "dcp.out" 0)
    with (open_output fuel (auto_name 0) (Z.of_nat 0)).
  replace fuel with (n + S (fuel - S n))%nat by lia.
  rewrite (open_output_skips n 0 (S (fuel - S n)));
    [| exact Hmax | intros j Hj; apply Hbusy; lia].
  cbn [Nat.add open_output].
  rewrite Herr. apply Z.eqb_neq in Hne. rewrite Hne. reflexivity.
Qed.

(** ** Owner and group *)

(** X4. A name the user or group database knows, whether it comes from
    the flag or from the environment, gives the uid or gid of its entry
    and no warning; in every case the parsers return, never end the run,
    and say at most one thing, a warning. *)
Theorem owner_group_resolved (info : cmdline_info) :
  (forall user uid,
      owner_given info = true /\ owner_arg info = user \/
      owner_given info = false /\ getenv w ENV_OWNER = Some user ->
      getpwnam w user = Some uid ->
      parse_owner info = ([], Done (uid, Some user))) /\
  (forall name gid,
      group_given info = true /\ group_arg info = name \/
      group_given info = false /\ getenv w ENV_GROUP = Some name ->
      getgrnam w name = Some gid ->
      parse_group info = ([], Done (gid, Some name))) /\
  (exists t r, parse_owner info = (t, Done r) /\
               (t = [] \/ exists msg, t = [Warn msg])) /\
  (exists t r, parse_group info = (t, Done r) /\
               (t = [] \/ exists msg, t = [Warn msg])).
Proof.
  unfold parse_owner, parse_group. repeat split.
  - intros user uid [[-> <-] | [-> ->]] ->; reflexivity.
  - intros name gid [[-> <-] | [-> ->]] ->; reflexivity.
  - destruct (if owner_given info then _ else _) as [user |];
      [destruct (getpwnam w user) |];
      do 2 eexists; (split; [reflexivity |]); simpl;
      first [left; reflexivity | right; eexists; reflexivity].
  - destruct (if group_given info then _ else _) as [name |];
      [destruct (getgrnam w name) |];
      do 2 eexists; (split; [reflexivity |]); simpl;
      first [left; reflexivity | right; eexists; reflexivity].
Qed.

(** ** The destination, continued *)

(** X5. [prepare] returns 0 or -1.  It returns -1 exactly when there is
    one source operand and either the source cannot be stat'ed, or the
    source is a directory and the destination cannot be stat'ed for a
    reason other than not existing; it then hands back no new
    destination and logs one error naming the path.  When it returns 0
    it logs nothing. *)
Theorem prepare_result (files : list string) (count : Z) (dest : string) :
  let src := nth 0 files EmptyString in
  exists t r newdest,
    prepare files count dest = (t, Done (r, newdest)) /\
    (r = 0 /\ t = [] \/
     r = -1 /\ newdest = None /\
     exists path errno,
       t = [LogError ("cannot stat `" +++ path +++ "'")] /\
       stat w path = StatErr errno /\
       (path = src \/ path = dest /\ errno <> ENOENT)) /\
    (r = -1 <->
     count = 1 /\
     ((exists errno, stat w src = StatErr errno) \/
      is_dir src = true /\
      exists errno, stat w dest = StatErr errno /\ errno <> ENOENT)).
Proof.
  intros src. subst src. unfold prepare, is_dir.
  destruct (Z.eqb_spec count 1) as [Hc | Hc].
  2:{ do 3 eexists. split; [reflexivity |]. split; [auto |].
      split; [discriminate | intros [H _]; contradiction]. }
  destruct (stat w (nth 0 files EmptyString)) as [m | e] eqn:Hs.
  2:{ do 3 eexists. split; [reflexivity |]. split.
      - right. repeat split. exists (nth 0 files EmptyString), e. auto.
      - split; [intros _ | reflexivity]. split; [exact Hc |]. left. eauto. }
  destruct (S_ISDIR m) eqn:Hm.
  2:{ do 3 eexists. split; [reflexivity |]. split; [auto |].
      split; [discriminate |].
      intros [_ [[e He] | [Hd _]]]; discriminate. }
  destruct (stat w dest) as [m' | e'] eqn:Hd.
  - destruct (S_ISDIR m');
      do 3 eexists; (split; [reflexivity |]); (split; [auto |]);
      (split; [discriminate |]);
      intros [_ [[e He] | [_ (e & He & _)]]]; discriminate.
  - destruct (Z.eqb_spec e' ENOENT) as [He | He]; simpl.
    + do 3 eexists. split; [reflexivity |]. split; [auto |].
      split; [discriminate |].
      intros [_ [[e He'] | [_ (e & He' & Hne)]]]; [discriminate |].
      injection He' as <-. contradiction.
    + do 3 eexists. split; [reflexivity |]. split.
      * right. repeat split. exists dest, e'. auto.
      * split; [intros _ | reflexivity]. split; [exact Hc |]. right.
        split; [reflexivity |]. eauto.
Qed.

(** ** The index *)

Lemma build_index_read_done (paths : list string) :
  forall idx t idx',
    build_index_read idx paths = (t, Done idx') ->
    idx_type idx' = idx_type idx /\
    idx_read idx' = idx_read idx ++ paths /\
    t = map IndexRead paths.
Proof.
  induction paths as [| path paths IH]; intros idx t idx';
    cbn [build_index_read].
  - intros H. injection H as <- <-. rewrite app_nil_r. auto.
  - unfold bind, emit.
    destruct (io_index_read w idx path); [| discriminate].
    destruct (build_index_read _ paths) as [t' r] eqn:Hrest.
    intros H. injection H as <- ->.
    apply IH in Hrest. destruct Hrest as (Hty & Hrd & ->). simpl in *.
    rewrite Hrd, <- app_assoc. auto.
Qed.

Lemma build_index_read_exit (paths : list string) :
  forall idx t s msg,
    build_index_read idx paths = (t, Exit s msg) ->
    exists pre path post,
      paths = pre ++ path :: post /\
      t = map IndexRead (pre ++ [path]) /\
      s = EXIT_FAILURE /\
      msg = "error building index with entries from '" +++ path +++ "'" /\
      io_index_read w {| idx_type := idx_type idx;
                         idx_read := idx_read idx ++ pre |} path = false.
Proof.
  induction paths as [| path paths IH]; intros idx t s msg;
    cbn [build_index_read].
  - discriminate.
  - unfold bind, emit.
    destruct (io_index_read w idx path) eqn:Hread.
    + destruct (build_index_read _ paths) as [t' r] eqn:Hrest.
      intros H. injection H as <- ->.
      apply IH in Hrest.
      destruct Hrest as (pre & p & post & -> & -> & -> & -> & Hp).
      simpl in Hp. rewrite <- app_assoc in Hp.
      exists (path :: pre), p, post. auto.
    + intros H. injection H as <- <- <-.
      exists [], path, paths. rewrite app_nil_r.
      destruct idx. auto.
Qed.

Lemma build_index_read_no_spin (paths : list string) :
  forall idx t, build_index_read idx paths <> (t, Spin).
Proof.
  induction paths as [| path paths IH]; intros idx t;
    cbn [build_index_read].
  - discriminate.
  - unfold bind, emit.
    destruct (io_index_read w idx path); [| discriminate].
    destruct (build_index_read _ paths) as [t' r] eqn:Hrest.
    intros H. injection H as <- ->. apply (IH _ _ Hrest).
Qed.

Lemma build_index_read_all (paths : list string) :
  (forall idx path, In path paths -> io_index_read w idx path = true) ->
  forall idx,
    build_index_read idx paths
    = (map IndexRead paths,
       Done {| idx_type := idx_type idx;
               idx_read := idx_read idx ++ paths |}).
Proof.
  induction paths as [| path paths IH]; intros Hok idx;
    cbn [build_index_read].
  - rewrite app_nil_r. destruct idx. reflexivity.
  - unfold bind, emit. rewrite Hok by (left; reflexivity).
    rewrite IH by (intros i p Hp; apply Hok; right; exact Hp).
    simpl. rewrite <- app_assoc. reflexivity.
Qed.

Lemma build_index_done (digests : Z) (paths : list string) t idx :
  build_index digests paths = (t, Done idx) ->
  build_index_type digests = Some (idx_type idx) /\
  idx_read idx = paths /\
  t = IndexCreate (idx_type idx) :: map IndexRead paths.
Proof.
  unfold build_index.
  destruct (build_index_type digests) as [type |]; [| discriminate].
  unfold bind, emit. destruct (index_create w type); [| discriminate].
  destruct (build_index_read _ paths) as [t' r] eqn:Hrest.
  intros H. injection H as <- ->.
  apply build_index_read_done in Hrest.
  destruct Hrest as (Hty & Hrd & ->). simpl in *. subst type. auto.
Qed.

(** X7. An index that [build_index] returns is keyed by the digest type
    chosen from the mask and holds every manifest given, each read once
    and in the order given; and it does return when the mask has a type,
    the index can be created and every manifest can be read. *)
Theorem build_index_ingests_all (digests : Z) (paths : list string) :
  (forall t idx,
      build_index digests paths = (t, Done idx) ->
      build_index_type digests = Some (idx_type idx) /\
      idx_read idx = paths /\
      t = IndexCreate (idx_type idx) :: map IndexRead paths) /\
  (forall type,
      build_index_type digests = Some type ->
      index_create w type = true ->
      (forall idx path, In path paths -> io_index_read w idx path = true) ->
      build_index digests paths
      = (IndexCreate type :: map IndexRead paths,
         Done {| idx_type := type; idx_read := paths |})).
Proof.
  unfold build_index. split.
  - intros t idx. fold (build_index digests paths). apply build_index_done.
  - intros type -> Hcreate Hok. unfold bind, emit. rewrite Hcreate.
    rewrite (build_index_read_all paths Hok). reflexivity.
Qed.

(** X8. When [build_index] ends the run, the status is a failure and one
    of three things happened: the mask had no digest type and nothing was
    done; the index could not be created; or a manifest could not be
    read, and then the manifests before it were read in order, the
    message names it, and no manifest after it was touched. *)
Theorem build_index_stops_at_first_failure
    (digests : Z) (paths : list string) (t : list event) (s : Z)
    (msg : string) :
  build_index digests paths = (t, Exit s msg) ->
  s = EXIT_FAILURE /\
  (build_index_type digests = None /\ t = [] \/
   (exists type, build_index_type digests = Some type /\
                 index_create w type = false /\ t = [IndexCreate type]) \/
   exists type pre path post,
     build_index_type digests = Some type /\
     paths = pre ++ path :: post /\
     t = IndexCreate type :: map IndexRead (pre ++ [path]) /\
     msg = "error building index with entries from '" +++ path +++ "'" /\
     io_index_read w {| idx_type := type; idx_read := pre |} path = false).
Proof.
  unfold build_index.
  destruct (build_index_type digests) as [type |].
  - unfold bind, emit. destruct (index_create w type) eqn:Hcreate.
    + destruct (build_index_read _ paths) as [t' r] eqn:Hrest.
      intros H. injection H as <- ->.
      apply build_index_read_exit in Hrest.
      destruct Hrest as (pre & path & post & -> & -> & -> & -> & Hp).
      simpl in Hp. split; [reflexivity |]. right. right.
      exists type, pre, path, post. auto.
    + intros H. injection H as <- <- _. split; [reflexivity |].
      right. left. exists type. auto.
  - intros H. injection H as <- <- _. auto.
Qed.

(** ** The run *)

Lemma bind_pair {A B} (t : list event) (a : A) (f : A -> M B) :
  bind (t, Done a) f = (t ++ trace (f a), outcome (f a)).
Proof. unfold bind, trace, outcome. destruct (f a). reflexivity. Qed.

Ltac bind_steps :=
  repeat (rewrite bind_pair; cbn [trace outcome fst snd]).

Lemma header_app (t1 t2 : list event) :
  header (t1 ++ t2) = header t1 ++ header t2.
Proof.
  induction t1 as [| e t1 IH]; simpl; auto.
  destruct e; simpl; rewrite ?IH; reflexivity.
Qed.

Lemma created_app (t1 t2 : list event) :
  created (t1 ++ t2) = created t1 ++ created t2.
Proof.
  induction t1 as [| e t1 IH]; simpl; auto.
  destruct e; simpl; rewrite ?IH; reflexivity.
Qed.

Lemma print_metadata_returns out version argv opts digests :
  exists t,
    print_metadata out version argv opts digests = (t, Done 0) /\
    dcp_calls t = [] /\ created t = [].
Proof.
  unfold print_metadata. destruct out as [out |];
    [| eexists; repeat split].
  destruct (getcwd w), (Opts.username opts), (Opts.groupname opts);
    eexists; repeat split.
Qed.

Lemma build_index_outcome (digests : Z) (paths : list string) :
  match outcome (build_index digests paths) with
  | Done _ => True
  | Exit s _ => s = EXIT_FAILURE
  | Spin => False
  end.
Proof.
  unfold build_index. destruct (build_index_type digests) as [type |];
    [| reflexivity].
  unfold bind, emit. destruct (index_create w type); [| reflexivity].
  destruct (build_index_read _ paths) as [t [idx | s msg |]] eqn:Hrest;
    simpl; auto.
  - apply build_index_read_exit in Hrest.
    destruct Hrest as (_ & _ & _ & _ & _ & Hs & _). exact Hs.
  - apply (build_index_read_no_spin _ _ _ Hrest).
Qed.

(** [dcp_main] from the header on, the index being [idx], built with the
    events [ti], and the mask for the header being [digests]. *)
Lemma dcp_main_cases (opts : mainopts) (argv : list string)
    (ti : list event) (idx : option index_t) (digests : Z) :
  Opts.inputs opts = None /\ ti = [] /\ idx = None /\
  digests = Opts.digests opts \/
  (exists paths i,
      Opts.inputs opts = Some paths /\
      io_index_digest_peek w paths (Opts.digests opts) = Some digests /\
      build_index digests paths = (ti, Done i) /\ idx = Some i) ->
  exists th tp r newdest,
    print_metadata (Opts.outputstream opts) VERSION argv opts digests
    = (th, Done 0) /\
    prepare (Opts.files opts) (Opts.filecount opts) (Opts.dest opts)
    = (tp, Done (r, newdest)) /\
    let dcpopts :=
      {| DcpOpts.bufsize := Opts.cache_size opts;
         DcpOpts.digests := Opts.digests opts;
         DcpOpts.uid := Opts.uid opts;
         DcpOpts.gid := Opts.gid opts;
         DcpOpts.index := idx;
         DcpOpts.verbose := Opts.verbose_mode opts |} in
    let dest := match newdest with
                | Some d => d
                | None => Opts.dest opts
                end in
    dcp_main opts argv
    = if io_dcp_processor_ctx_create w (Opts.outputstream opts)
      then if r =? 0
           then (ti ++ th ++ tp
                    ++ [Dcp dest (Opts.files opts) (Opts.filecount opts)
                          dcpopts],
                 Done (dcp w dest (Opts.files opts) (Opts.filecount opts)
                         dcpopts))
           else (ti ++ th ++ tp,
                 Exit EXIT_FAILURE "cannot prepare destination")
      else (ti ++ th, Exit EXIT_FAILURE "cannot instantiate output context").
Proof.
  intros H.
  destruct (print_metadata_returns (Opts.outputstream opts) VERSION argv opts
              digests) as (th & Hth & _).
  destruct (prepare_returns (Opts.files opts) (Opts.filecount opts)
              (Opts.dest opts)) as (tp & r & Hp & _).
  exists th, tp, r, (new_dest (Opts.files opts) (Opts.filecount opts)
                       (Opts.dest opts)).
  split; [exact Hth |]. split; [exact Hp |].
  unfold dcp_main.
  destruct H as [(Hin & -> & -> & ->) | (paths & i & Hin & Hpeek & Hb & ->)];
    rewrite Hin, ?Hpeek, ?Hb; unfold ret; bind_steps;
    rewrite ?app_nil_r, Hth; bind_steps;
    (destruct (io_dcp_processor_ctx_create w (Opts.outputstream opts));
     [| cbn; rewrite ?app_nil_r; reflexivity]);
    bind_steps; rewrite Hp; bind_steps;
    destruct (r =? 0); cbn; rewrite ?app_nil_r, <- ?app_assoc; reflexivity.
Qed.

Lemma index_reads_app (t1 t2 : list event) :
  index_reads (t1 ++ t2) = index_reads t1 ++ index_reads t2.
Proof.
  induction t1 as [| e t1 IH]; simpl; auto.
  destruct e; simpl; rewrite ?IH; reflexivity.
Qed.

Lemma index_reads_map (paths : list string) :
  index_reads (map IndexRead paths) = paths.
Proof. induction paths as [| p paths IH]; simpl; congruence. Qed.

Lemma print_metadata_parts out version argv opts digests t r :
  print_metadata out version argv opts digests = (t, r) ->
  dcp_calls t = [] /\ index_reads t = [] /\ created t = [].
Proof.
  unfold print_metadata. destruct out as [out |].
  - destruct (getcwd w), (Opts.username opts), (Opts.groupname opts);
      intros H; injection H as <- _; repeat split.
  - intros H. injection H as <- _. repeat split.
Qed.

Lemma prepare_parts files count dest t r :
  prepare files count dest = (t, r) ->
  dcp_calls t = [] /\ header t = [] /\ index_reads t = [] /\ created t = [].
Proof.
  unfold prepare. destruct (count =? 1).
  - destruct (stat w (nth 0 files EmptyString)) as [m | e].
    + destruct (S_ISDIR m).
      * destruct (stat w dest) as [m' | e'].
        -- destruct (S_ISDIR m'); intros H; injection H as <- _;
             repeat split.
        -- destruct (negb (e' =? ENOENT)); intros H; injection H as <- _;
             repeat split.
      * intros H. injection H as <- _. repeat split.
    + intros H. injection H as <- _. repeat split.
  - intros H. injection H as <- _. repeat split.
Qed.

Lemma print_metadata_digests_line out argv opts digests :
  In (io_metadata_put_strs "digests    "
        (map digest_name (in_use digests)) ", ")
    (header (trace (print_metadata (Some out) VERSION argv opts digests))).
Proof.
  unfold print_metadata, in_use, has. cbn [filter].
  destruct (HAS_MD5 digests), (HAS_SHA1 digests), (HAS_SHA256 digests),
    (HAS_SHA512 digests), (getcwd w), (Opts.username opts),
    (Opts.groupname opts); cbn; auto 10.
Qed.

Lemma print_metadata_tag_line out argv opts digests :
  In (io_metadata_put "File Generated by dcp DO NOT EDIT" None)
    (header (trace (print_metadata (Some out) VERSION argv opts digests))).
Proof.
  unfold print_metadata.
  destruct (getcwd w), (Opts.username opts), (Opts.groupname opts);
    cbn; auto.
Qed.

(** X9. [dcp_main] ends in one of two ways: with a failure status and
    the copy engine never started; or with the copy engine started once,
    as the last thing done, on all the operands, and its result returned
    as the result of the run. *)
Theorem dcp_main_outcome (opts : mainopts) (argv : list string) :
  (exists msg,
      outcome (dcp_main opts argv) = Exit EXIT_FAILURE msg /\
      dcp_calls (trace (dcp_main opts argv)) = []) \/
  (exists t dest dcpopts,
      dcp_main opts argv
      = (t ++ [Dcp dest (Opts.files opts) (Opts.filecount opts) dcpopts],
         Done (dcp w dest (Opts.files opts) (Opts.filecount opts) dcpopts)) /\
      dcp_calls t = []).
Proof.
  assert (Hrun : forall ti idx digests,
             dcp_calls ti = [] ->
             Opts.inputs opts = None /\ ti = [] /\ idx = None /\
             digests = Opts.digests opts \/
             (exists paths i,
                 Opts.inputs opts = Some paths /\
                 io_index_digest_peek w paths (Opts.digests opts)
                 = Some digests /\
                 build_index digests paths = (ti, Done i) /\ idx = Some i) ->
             (exists msg,
                 outcome (dcp_main opts argv) = Exit EXIT_FAILURE msg /\
                 dcp_calls (trace (dcp_main opts argv)) = []) \/
             (exists t dest dcpopts,
                 dcp_main opts argv
                 = (t ++ [Dcp dest (Opts.files opts) (Opts.filecount opts)
                            dcpopts],
                    Done (dcp w dest (Opts.files opts) (Opts.filecount opts)
                            dcpopts)) /\
                 dcp_calls t = [])).
  { intros ti idx digests Hti H.
    destruct (dcp_main_cases opts argv ti idx digests H)
      as (th & tp & r & nd & Hth & Hp & Heq).
    apply print_metadata_parts in Hth. destruct Hth as (Hth & _).
    apply prepare_parts in Hp. destruct Hp as (Hp & _).
    cbv zeta in Heq. rewrite Heq.
    destruct (io_dcp_processor_ctx_create w _); [destruct (r =? 0) |].
    - right. do 3 eexists. rewrite !app_assoc. split; [reflexivity |].
      rewrite !dcp_calls_app, Hti, Hth, Hp. reflexivity.
    - left. eexists. split; [reflexivity |]. cbn [trace fst].
      rewrite !dcp_calls_app, Hti, Hth, Hp. reflexivity.
    - left. eexists. split; [reflexivity |]. cbn [trace fst].
      rewrite !dcp_calls_app, Hti, Hth. reflexivity. }
  destruct (Opts.inputs opts) as [paths |] eqn:Hin.
  - destruct (io_index_digest_peek w paths (Opts.digests opts))
      as [digests |] eqn:Hpeek.
    + pose proof (build_index_outcome digests paths) as Hout.
      pose proof (build_index_trace digests paths) as Htr.
      apply index_only_quiet in Htr. destruct Htr as [Htr _].
      destruct (build_index digests paths) as [ti [i | s msg |]] eqn:Hb;
        cbn [outcome trace fst snd] in *.
      * apply (Hrun ti (Some i) digests Htr). right. eauto 10.
      * left. subst s. unfold dcp_main. rewrite Hin, Hpeek, Hb. cbn.
        eexists. split; [reflexivity | exact Htr].
      * contradiction.
    + left. unfold dcp_main. rewrite Hin, Hpeek. cbn. eauto.
  - apply (Hrun [] None (Opts.digests opts) eq_refl). left. auto.
Qed.

(** X10. Without [--input] no index is made: nothing is read, the copy
    engine gets no index, and the algorithms named in the header are
    those of the mask the copy engine gets. *)
Theorem dcp_main_without_inputs (opts : mainopts) (argv : list string) :
  Opts.inputs opts = None ->
  index_reads (trace (dcp_main opts argv)) = [] /\
  (forall dest dcpopts,
      In (dest, dcpopts) (dcp_calls (trace (dcp_main opts argv))) ->
      DcpOpts.index dcpopts = None /\
      forall out,
        Opts.outputstream opts = Some out ->
        In (io_metadata_put_strs "digests    "
              (map digest_name (in_use (DcpOpts.digests dcpopts))) ", ")
          (header (trace (dcp_main opts argv)))).
Proof.
  intros Hin.
  destruct (dcp_main_cases opts argv [] None (Opts.digests opts))
    as (th & tp & r & nd & Hth & Hp & Heq); [left; auto |].
  pose proof (print_metadata_parts _ _ _ _ _ _ _ Hth) as (Hth1 & Hth2 & _).
  pose proof (prepare_parts _ _ _ _ _ Hp) as (Hp1 & Hp2 & Hp3 & _).
  cbv zeta in Heq. rewrite Heq. clear Heq.
  destruct (io_dcp_processor_ctx_create w _); [destruct (r =? 0) |];
    cbn [trace fst app];
    rewrite ?index_reads_app, ?dcp_calls_app, ?Hth1, ?Hth2, ?Hp1, ?Hp3;
    (split; [reflexivity |]); cbn; try contradiction.
  intros dest dcpopts [H | []]. injection H as <- <-. split; [reflexivity |].
  intros out Hout. cbn. rewrite !header_app. apply in_or_app. left.
  pose proof (print_metadata_digests_line out argv opts (Opts.digests opts))
    as Hline.
  rewrite <- Hout, Hth in Hline. exact Hline.
Qed.

(** X11. With [--input], a run that reaches the copy engine hands it an
    index holding every manifest given, read once each in the order
    given and keyed by the digest type of the peeked mask; and the
    header names the algorithms of the peeked mask. *)
Theorem dcp_main_with_inputs
    (opts : mainopts) (argv : list string) (paths : list string)
    (dest : string) (dcpopts : dcp_options) :
  Opts.inputs opts = Some paths ->
  In (dest, dcpopts) (dcp_calls (trace (dcp_main opts argv))) ->
  exists digests idx,
    io_index_digest_peek w paths (Opts.digests opts) = Some digests /\
    DcpOpts.index dcpopts = Some idx /\
    build_index_type digests = Some (idx_type idx) /\
    idx_read idx = paths /\
    index_reads (trace (dcp_main opts argv)) = paths /\
    forall out,
      Opts.outputstream opts = Some out ->
      In (io_metadata_put_strs "digests    "
            (map digest_name (in_use digests)) ", ")
        (header (trace (dcp_main opts argv))).
Proof.
  intros Hin Hcall.
  destruct (io_index_digest_peek w paths (Opts.digests opts))
    as [digests |] eqn:Hpeek.
  2:{ unfold dcp_main in Hcall. rewrite Hin, Hpeek in Hcall.
      contradiction. }
  pose proof (build_index_trace digests paths) as Htr.
  apply index_only_quiet in Htr. destruct Htr as [Htr _].
  destruct (build_index digests paths) as [ti [i | s msg |]] eqn:Hb;
    cbn [trace fst] in Htr.
  2,3: unfold dcp_main in Hcall; rewrite Hin, Hpeek, Hb in Hcall;
    cbn in Hcall; rewrite Htr in Hcall; contradiction.
  destruct (dcp_main_cases opts argv ti (Some i) digests)
    as (th & tp & r & nd & Hth & Hp & Heq); [right; eauto 10 |].
  pose proof (print_metadata_parts _ _ _ _ _ _ _ Hth) as (Hth1 & Hth2 & _).
  pose proof (prepare_parts _ _ _ _ _ Hp) as (Hp1 & Hp2 & Hp3 & _).
  pose proof Hb as Hb'.
  apply build_index_done in Hb'. destruct Hb' as (Hty & Hrd & ->).
  cbv zeta in Heq. rewrite Heq in *. clear Heq.
  destruct (io_dcp_processor_ctx_create w _); [destruct (r =? 0) |];
    cbn [trace fst] in *;
    rewrite ?dcp_calls_app, ?Htr, ?Hth1, ?Hp1 in Hcall;
    cbn in Hcall; try contradiction.
  destruct Hcall as [H | []]. injection H as <- <-.
  exists digests, i. repeat split; auto.
  - rewrite !index_reads_app, Hth2, Hp3. cbn [index_reads].
    rewrite index_reads_map, !app_nil_r. reflexivity.
  - intros out Hout. rewrite !header_app. apply in_or_app. right.
    apply in_or_app. left.
    pose proof (print_metadata_digests_line out argv opts digests) as Hline.
    rewrite <- Hout, Hth in Hline. exact Hline.
Qed.

(** X12. A run without [--input] whose single source operand cannot be
    stat'ed ends with a failure status and the copy engine not started,
    but only after the header has been written to the output. *)
Theorem dcp_main_prepare_failure
    (opts : mainopts) (argv : list string) (out : string) (errno : Z) :
  Opts.inputs opts = None ->
  Opts.outputstream opts = Some out ->
  io_dcp_processor_ctx_create w (Some out) = true ->
  Opts.filecount opts = 1 ->
  stat w (nth 0 (Opts.files opts) EmptyString) = StatErr errno ->
  outcome (dcp_main opts argv)
  = Exit EXIT_FAILURE "cannot prepare destination" /\
  dcp_calls (trace (dcp_main opts argv)) = [] /\
  In (io_metadata_put "File Generated by dcp DO NOT EDIT" None)
    (header (trace (dcp_main opts argv))) /\
  In (LogError ("cannot stat `" +++ nth 0 (Opts.files opts) EmptyString
                +++ "'"))
    (trace (dcp_main opts argv)).
Proof.
  intros Hin Hout Hctx Hc Hs.
  destruct (dcp_main_cases opts argv [] None (Opts.digests opts))
    as (th & tp & r & nd & Hth & Hp & Heq); [left; auto |].
  pose proof (print_metadata_parts _ _ _ _ _ _ _ Hth) as (Hth1 & _).
  pose proof (print_metadata_tag_line out argv opts (Opts.digests opts))
    as Htag.
  rewrite <- Hout, Hth in Htag. cbn [trace fst] in Htag.
  cbv zeta in Heq. rewrite Heq, Hout, Hctx. clear Heq.
  unfold prepare in Hp. rewrite Hc, Hs in Hp. cbn in Hp.
  injection Hp as <- <- <-. cbn.
  repeat split.
  - rewrite dcp_calls_app, Hth1. reflexivity.
  - rewrite header_app. apply in_or_app. left. exact Htag.
  - apply in_or_app. right. left. reflexivity.
Qed.

(** ** The header, continued *)

(** X13. The header lines come in one fixed order, each key once: tag,
    version, timestamp, command, digests, host, then cwd when it is
    known, sources, destination, output, then data_owner and data_group
    when the names were supplied.  Every line goes to the one output
    stream; the only other thing said is a warning, given exactly when
    the current directory is not known. *)
Theorem print_metadata_lines
    (out : string) (argv : list string) (opts : mainopts) (digests : Z) :
  let t := trace (print_metadata (Some out) VERSION argv opts digests) in
  map meta_key (header t)
  = ["File Generated by dcp DO NOT EDIT"; "version    "; "timestamp  ";
     "command    "; "digests    "; "host       "]%string
    ++ match getcwd w with
       | Some _ => ["cwd        "%string]
       | None => []
       end
    ++ ["sources    "; "destination"; "output     "]%string
    ++ match Opts.username opts with
       | Some _ => ["data_owner "%string]
       | None => []
       end
    ++ match Opts.groupname opts with
       | Some _ => ["data_group "%string]
       | None => []
       end /\
  (forall e, In e t ->
             e = Warn "cannot retrieve current working directory" \/
             exists m, e = Metadata out m) /\
  (In (Warn "cannot retrieve current working directory") t
   <-> getcwd w = None).
Proof.
  intros t. subst t. unfold print_metadata.
  destruct (getcwd w) as [cwd |], (Opts.username opts) as [user |],
    (Opts.groupname opts) as [group |]; cbn;
    (split; [reflexivity |]);
    (split;
     [ intros e H;
       repeat match goal with
         | H : _ \/ _ |- _ => destruct H as [H | H]
         end; try contradiction; subst e; eauto
     | split;
       [ intros H;
         repeat match goal with
           | H : _ \/ _ |- _ => destruct H as [H | H]
           end; solve [discriminate H | contradiction | reflexivity]
       | intros H; first [discriminate H | left; reflexivity] ] ]).
Qed.

(** ** Parsing the command line, continued *)

Lemma parse_cache_size_val_quiet (val : string) :
  trace (parse_cache_size_val val) = [] /\
  match outcome (parse_cache_size_val val) with
  | Done size => 0 <= size < 2 ^ 64
  | Exit s _ => s = EXIT_FAILURE
  | Spin => False
  end.
Proof.
  unfold parse_cache_size_val. destruct (strtol val) as [n e].
  destruct e as [| e]; [split; reflexivity |].
  destruct (suffix_at (S e) val) as [c |];
    [| split; [reflexivity | apply to_size_t_range]].
  repeat match goal with
    | |- context [if ?b then _ else _] => destruct b
    end; split; try reflexivity; apply to_size_t_range.
Qed.

Lemma parse_cache_size_quiet (info : cmdline_info) :
  trace (parse_cache_size info) = [] /\
  match outcome (parse_cache_size info) with
  | Done size => 0 <= size < 2 ^ 64
  | Exit s _ => s = EXIT_FAILURE
  | Spin => False
  end.
Proof.
  unfold parse_cache_size.
  destruct (if cache_size_given info then _ else _) as [val |].
  - apply parse_cache_size_val_quiet.
  - split; [reflexivity |]. cbn. lia.
Qed.

Lemma parse_outputstream_creates fuel info t out name :
  parse_outputstream fuel info = (t, Done (out, name)) ->
  t = [Create name] /\ out = Some name.
Proof.
  unfold parse_outputstream. destruct (output_given info).
  - destruct (fopen_w w (output_arg info)); [| discriminate].
    intros H. injection H as <- <- <-. auto.
  - destruct (open_output fuel "dcp.out" 0) as [t1 [r | s msg | ]] eqn:Hloop;
      try discriminate.
    apply open_output_done in Hloop. destruct Hloop as (-> & _).
    cbn. destruct (fdopen_a w r); [| discriminate].
    intros H. injection H as <- <- <-. auto.
Qed.

Lemma warn_only (t : list event) :
  t = [] \/ (exists msg, t = [Warn msg]) ->
  dcp_calls t = [] /\ header t = [] /\ created t = [] /\ index_reads t = [].
Proof. intros [-> | [msg ->]]; repeat split. Qed.

Lemma owner_group_resolved_aux (info : cmdline_info) :
  exists t1 r1,
    parse_owner info = (t1, Done r1) /\
    (t1 = [] \/ exists msg, t1 = [Warn msg]) /\
    exists t2 r2,
      parse_group info = (t2, Done r2) /\
      (t2 = [] \/ exists msg, t2 = [Warn msg]).
Proof.
  unfold parse_owner, parse_group.
  destruct (if owner_given info then _ else _) as [user |];
    [destruct (getpwnam w user) |];
    (do 2 eexists; split; [reflexivity |]; split;
     [simpl; first [left; reflexivity | right; eexists; reflexivity] |]);
    (destruct (if group_given info then _ else _) as [name |];
     [destruct (getgrnam w name) |]);
    do 2 eexists; (split; [reflexivity |]); simpl;
    first [left; reflexivity | right; eexists; reflexivity].
Qed.

(** A loop that does not finish has created nothing. *)
Lemma open_output_quiet (fuel : nat) :
  forall name i t r,
    open_output fuel name i = (t, r) ->
    (forall a, r <> Done a) ->
    dcp_calls t = [] /\ header t = [].
Proof.
  induction fuel as [| fuel IH]; intros name i t r; simpl.
  - intros H _. injection H as <- _. auto.
  - destruct (open_excl w name) as [errno |].
    + destruct (errno =? EEXIST); [apply IH |].
      intros H _. injection H as <- _. auto.
    + intros H Hr. injection H as _ <-. exfalso. apply (Hr name eq_refl).
Qed.

(** What a returning [mainopts_parse] has done: the four parsers ran in
    order and returned. *)
Lemma mainopts_parse_done fuel info t opts :
  mainopts_parse fuel info = (t, Done opts) ->
  exists name t1 uid user t2 gid group size,
    parse_outputstream fuel info = ([Create name], Done (Some name, name)) /\
    parse_owner info = (t1, Done (uid, user)) /\
    parse_group info = (t2, Done (gid, group)) /\
    parse_cache_size info = ([], Done size) /\
    t = [Create name] ++ t1 ++ t2 /\
    1 <= to_int (inputs_num info) - 1 /\
    opts = {| Opts.files := inputs info;
              Opts.filecount := to_int (inputs_num info) - 1;
              Opts.dest := nth (Z.to_nat (to_int (inputs_num info) - 1))
                             (inputs info) EmptyString;
              Opts.digests := parse_digests info;
              Opts.inputs := input_arg info;
              Opts.outputstream := Some name;
              Opts.outfilename := name;
              Opts.uid := uid;
              Opts.gid := gid;
              Opts.username := user;
              Opts.groupname := group;
              Opts.cache_size := size;
              Opts.verbose_mode := verbose_flag info |}.
Proof.
  unfold mainopts_parse.
  destruct (Z.ltb_spec (to_int (inputs_num info) - 1) 0) as [L | L];
    [discriminate |].
  destruct (Z.eqb_spec (to_int (inputs_num info) - 1) 0) as [E | E];
    [discriminate |].
  destruct (parse_outputstream fuel info) as [to [[out name] | s msg |]]
    eqn:Hout; try discriminate.
  apply parse_outputstream_creates in Hout. destruct Hout as [-> ->].
  destruct (parse_owner_returns info) as (t1 & [uid user] & Ho).
  destruct (parse_group_returns info) as (t2 & [gid group] & Hg).
  pose proof (parse_cache_size_quiet info) as [Hct Hco].
  destruct (parse_cache_size info) as [t3 [size | s msg |]] eqn:Hc;
    cbn [trace outcome fst snd] in Hct, Hco; subst t3;
    bind_steps; rewrite Ho; bind_steps; rewrite Hg; bind_steps;
    cbn; try discriminate; try contradiction.
  rewrite !app_nil_r. intros H. injection H as <- <-.
  exists name, t1, uid, user, t2, gid, group, size.
  repeat split; auto. lia.
Qed.

(** X14. A cache size that cannot be parsed ends the run only after the
    output file has been created: with two or more operands, the file is
    there, still empty of any header, when the run stops. *)
Theorem mainopts_parse_late_cache_error
    (fuel : nat) (info : cmdline_info) (name : string) (s : Z)
    (msg : string) :
  2 <= inputs_num info <= INT_MAX ->
  parse_outputstream fuel info = ([Create name], Done (Some name, name)) ->
  outcome (parse_cache_size info) = Exit s msg ->
  outcome (mainopts_parse fuel info) = Exit s msg /\
  created (trace (mainopts_parse fuel info)) = [name] /\
  header (trace (mainopts_parse fuel info)) = [].
Proof.
  intros Hn Hout Hcache. unfold mainopts_parse.
  rewrite to_int_small by (unfold INT_MAX in *; lia).
  destruct (Z.ltb_spec (inputs_num info - 1) 0) as [L | _]; [lia |].
  destruct (Z.eqb_spec (inputs_num info - 1) 0) as [L | _]; [lia |].
  rewrite Hout.
  destruct (owner_group_resolved_aux info) as (t1 & r1 & Ho & H1 & t2 & r2 & Hg & H2).
  pose proof (parse_cache_size_quiet info) as [Hct _].
  destruct (parse_cache_size info) as [t3 r3].
  cbn [trace outcome fst snd] in Hct, Hcache. subst t3 r3.
  destruct r1 as [uid user], r2 as [gid group].
  bind_steps. rewrite Ho. bind_steps. rewrite Hg. bind_steps. cbn.
  apply warn_only in H1, H2.
  destruct H1 as (_ & H1 & H1' & _), H2 as (_ & H2 & H2' & _).
  rewrite !app_nil_r, !created_app, !header_app, H1, H1', H2, H2'.
  auto.
Qed.

(** X15. Options that [mainopts_parse] returns are sound: there is at
    least one source, the destination index is inside the operand array,
    the output stream is open on the file whose name is recorded, that
    file has been created, and the cache size fits [size_t]. *)
Theorem mainopts_parse_sound
    (fuel : nat) (info : cmdline_info) (t : list event) (opts : mainopts) :
  inputs_num info <= INT_MAX ->
  mainopts_parse fuel info = (t, Done opts) ->
  Opts.files opts = inputs info /\
  1 <= Opts.filecount opts /\
  Opts.filecount opts = Z.of_nat (List.length (Opts.files opts)) - 1 /\
  Opts.outputstream opts = Some (Opts.outfilename opts) /\
  created t = [Opts.outfilename opts] /\
  0 <= Opts.cache_size opts < 2 ^ 64.
Proof.
  intros Hmax H. apply mainopts_parse_done in H.
  destruct H as (name & t1 & uid & user & t2 & gid & group & size
                 & _ & Ho & Hg & Hc & -> & Hfc & ->).
  cbn [Opts.files Opts.filecount Opts.outputstream Opts.outfilename
         Opts.cache_size].
  assert (Hlen : to_int (inputs_num info) = inputs_num info).
  { apply to_int_small. unfold inputs_num in *. lia. }
  repeat split; try (unfold inputs_num in *; lia).
  - destruct (owner_group_resolved_aux info)
      as (t1' & r1 & Ho' & H1 & t2' & r2 & Hg' & H2).
    rewrite Ho in Ho'. rewrite Hg in Hg'.
    injection Ho' as <- _. injection Hg' as <- _.
    apply warn_only in H1, H2.
    destruct H1 as (_ & _ & H1 & _), H2 as (_ & _ & H2 & _).
    rewrite !created_app, H1, H2. reflexivity.
  - pose proof (parse_cache_size_quiet info) as [_ Hr].
    rewrite Hc in Hr. cbn in Hr. lia.
  - pose proof (parse_cache_size_quiet info) as [_ Hr].
    rewrite Hc in Hr. cbn in Hr. lia.
Qed.

(** ** From the command line to the copy engine *)

Lemma parse_outputstream_quiet (fuel : nat) (info : cmdline_info) :
  dcp_calls (trace (parse_outputstream fuel info)) = [] /\
  header (trace (parse_outputstream fuel info)) = [].
Proof.
  unfold parse_outputstream. destruct (output_given info).
  - destruct (fopen_w w _); split; reflexivity.
  - rewrite trace_bind_eq, dcp_calls_app, header_app.
    destruct (open_output fuel "dcp.out" 0) as [t [r | s msg |]] eqn:Hloop;
      cbn [trace outcome fst snd].
    + apply open_output_done in Hloop. destruct Hloop as (-> & _).
      destruct (fdopen_a w r); split; reflexivity.
    + apply open_output_quiet in Hloop; [| discriminate].
      destruct Hloop as [-> ->]. split; reflexivity.
    + apply open_output_quiet in Hloop; [| discriminate].
      destruct Hloop as [-> ->]. split; reflexivity.
Qed.

Lemma mainopts_parse_quiet (fuel : nat) (info : cmdline_info) :
  dcp_calls (trace (mainopts_parse fuel info)) = [] /\
  header (trace (mainopts_parse fuel info)) = [].
Proof.
  unfold mainopts_parse.
  destruct (_ <? 0); [split; reflexivity |].
  destruct (_ =? 0); [split; reflexivity |].
  destruct (parse_outputstream_quiet fuel info) as [Ho1 Ho2].
  destruct (owner_group_resolved_aux info)
    as (t1 & [uid user] & Ho & H1 & t2 & [gid group] & Hg & H2).
  apply warn_only in H1, H2.
  destruct H1 as (H1 & H1' & _), H2 as (H2 & H2' & _).
  pose proof (parse_cache_size_quiet info) as [Hct _].
  rewrite trace_bind_eq, dcp_calls_app, header_app, Ho1, Ho2.
  destruct (outcome (parse_outputstream fuel info)) as [[out name] | |];
    [| split; reflexivity ..].
  rewrite Ho. bind_steps. rewrite Hg. bind_steps.
  rewrite trace_bind_eq, Hct.
  destruct (outcome (parse_cache_size info)); cbn [trace fst ret app];
    rewrite ?dcp_calls_app, ?header_app, H1, H1', H2, H2'; split; reflexivity.
Qed.

(** The header and the copy engine of [main] are those of [dcp_main]. *)
Lemma main_calls (fuel : nat) (argv : list string) (info : cmdline_info) :
  dcp_calls (trace (main fuel argv info)) = [] /\
  header (trace (main fuel argv info)) = [] \/
  exists t opts,
    mainopts_parse fuel info = (t, Done opts) /\
    dcp_calls (trace (main fuel argv info))
    = dcp_calls (trace (dcp_main opts argv)) /\
    header (trace (main fuel argv info))
    = header (trace (dcp_main opts argv)).
Proof.
  unfold main. destruct (mainopts_parse_quiet fuel info) as [Hq1 Hq2].
  rewrite trace_bind_eq, dcp_calls_app, header_app, Hq1, Hq2.
  destruct (mainopts_parse fuel info) as [t [opts | s msg |]];
    cbn [trace outcome fst snd app]; auto.
  right. exists t, opts. split; [reflexivity |].
  rewrite trace_bind_eq.
  destruct (outcome (dcp_main opts argv)); cbn [trace fst ret];
    rewrite ?app_nil_r; split; reflexivity.
Qed.

Lemma print_metadata_name_lines out argv opts digests :
  let h := header (trace (print_metadata (Some out) VERSION argv opts
                            digests)) in
  (forall name, In (io_metadata_put "data_owner " (Some name)) h
                <-> Opts.username opts = Some name) /\
  (forall name, In (io_metadata_put "data_group " (Some name)) h
                <-> Opts.groupname opts = Some name).
Proof.
  intros h. subst h. unfold print_metadata.
  destruct (getcwd w) as [cwd |], (Opts.username opts) as [user |],
    (Opts.groupname opts) as [group |]; cbn;
    split; intros name; split;
    try solve [ intros H;
                repeat match goal with
                  | H : _ \/ _ |- _ => destruct H as [H | H]
                  end;
                solve [discriminate H | contradiction
                       | injection H as <-; reflexivity] ];
    intros H; first [discriminate H | injection H as <-; solve_in].
Qed.

(** The header of a run is the one [print_metadata] writes, or none. *)
Lemma dcp_main_header (opts : mainopts) (argv : list string) :
  header (trace (dcp_main opts argv)) = [] \/
  exists digests,
    header (trace (dcp_main opts argv))
    = header (trace (print_metadata (Opts.outputstream opts) VERSION argv
                       opts digests)).
Proof.
  assert (Hrun : forall ti idx digests,
             header ti = [] ->
             Opts.inputs opts = None /\ ti = [] /\ idx = None /\
             digests = Opts.digests opts \/
             (exists paths i,
                 Opts.inputs opts = Some paths /\
                 io_index_digest_peek w paths (Opts.digests opts)
                 = Some digests /\
                 build_index digests paths = (ti, Done i) /\ idx = Some i) ->
             header (trace (dcp_main opts argv))
             = header (trace (print_metadata (Opts.outputstream opts) VERSION
                                argv opts digests))).
  { intros ti idx digests Hti H.
    destruct (dcp_main_cases opts argv ti idx digests H)
      as (th & tp & r & nd & Hth & Hp & Heq).
    apply prepare_parts in Hp. destruct Hp as (_ & Hp & _).
    cbv zeta in Heq. rewrite Heq, Hth.
    destruct (io_dcp_processor_ctx_create w _); [destruct (r =? 0) |];
      cbn [trace fst]; rewrite !header_app, ?Hti, ?Hp; cbn;
      rewrite ?app_nil_r; reflexivity. }
  destruct (Opts.inputs opts) as [paths |] eqn:Hin.
  - destruct (io_index_digest_peek w paths (Opts.digests opts))
      as [digests |] eqn:Hpeek.
    + pose proof (build_index_outcome digests paths) as Hout.
      pose proof (build_index_trace digests paths) as Htr.
      apply index_only_quiet in Htr. destruct Htr as [_ Htr].
      destruct (build_index digests paths) as [ti [i | s msg |]] eqn:Hb;
        cbn [outcome trace fst snd] in *.
      * right. exists digests. apply (Hrun ti (Some i) digests Htr).
        right. eauto 10.
      * left. unfold dcp_main. rewrite Hin, Hpeek, Hb. cbn. exact Htr.
      * contradiction.
    + left. unfold dcp_main. rewrite Hin, Hpeek. reflexivity.
  - right. exists (Opts.digests opts).
    apply (Hrun [] None (Opts.digests opts) eq_refl). left. auto.
Qed.

Lemma parse_owner_name info t uid user :
  parse_owner info = (t, Done (uid, user)) ->
  user = if owner_given info then Some (owner_arg info)
         else getenv w ENV_OWNER.
Proof.
  unfold parse_owner.
  destruct (if owner_given info then _ else _) as [u |];
    [destruct (getpwnam w u) |]; intros H; now injection H as _ _ <-.
Qed.

Lemma parse_group_name info t gid group :
  parse_group info = (t, Done (gid, group)) ->
  group = if group_given info then Some (group_arg info)
          else getenv w ENV_GROUP.
Proof.
  unfold parse_group.
  destruct (if group_given info then _ else _) as [g |];
    [destruct (getgrnam w g) |]; intros H; now injection H as _ _ <-.
Qed.

(** X16. What the copy engine is started with by [main] is what the
    parsers made of the command line and the environment: the uid of
    [parse_owner], the gid of [parse_group], the size of
    [parse_cache_size] as buffer size, and the verbose flag. *)
Theorem main_hands_over
    (fuel : nat) (argv : list string) (info : cmdline_info)
    (dest : string) (dcpopts : dcp_options) :
  In (dest, dcpopts) (dcp_calls (trace (main fuel argv info))) ->
  (exists user,
      outcome (parse_owner info) = Done (DcpOpts.uid dcpopts, user)) /\
  (exists group,
      outcome (parse_group info) = Done (DcpOpts.gid dcpopts, group)) /\
  outcome (parse_cache_size info) = Done (DcpOpts.bufsize dcpopts) /\
  DcpOpts.verbose dcpopts = verbose_flag info.
Proof.
  intros Hcall.
  destruct (main_calls fuel argv info) as [[Hq _] | (t & opts & Hparse & Hq & _)];
    rewrite Hq in Hcall; [contradiction |].
  apply mainopts_parse_done in Hparse.
  destruct Hparse as (name & t1 & uid & user & t2 & gid & group & size
                      & _ & Ho & Hg & Hc & _ & _ & Hopts).
  destruct (dcp_main_calls opts argv) as [Hnil | (idx & Hone)];
    [rewrite Hnil in Hcall; contradiction |].
  rewrite Hone in Hcall. destruct Hcall as [H | []].
  injection H as _ <-. subst opts. cbn. rewrite Ho, Hg, Hc. cbn.
  repeat split; eexists; reflexivity.
Qed.

(** X17. In the header [main] writes, the data_owner line carries a name
    exactly when the header was written and that name was supplied, by
    [--owner] or else by [DCP_OWNER], whether or not the user database
    knows it; the same holds for data_group, [--group] and [DCP_GROUP]. *)
Theorem main_header_names
    (fuel : nat) (argv : list string) (info : cmdline_info) :
  let h := header (trace (main fuel argv info)) in
  let written :=
    In (io_metadata_put "File Generated by dcp DO NOT EDIT" None) h in
  (forall name,
      In (io_metadata_put "data_owner " (Some name)) h <->
      written /\
      (owner_given info = true /\ owner_arg info = name \/
       owner_given info = false /\ getenv w ENV_OWNER = Some name)) /\
  (forall name,
      In (io_metadata_put "data_group " (Some name)) h <->
      written /\
      (group_given info = true /\ group_arg info = name \/
       group_given info = false /\ getenv w ENV_GROUP = Some name)).
Proof.
  intros h written. subst h written.
  destruct (main_calls fuel argv info) as [[_ Hq] | (t & opts & Hparse & _ & Hq)];
    rewrite Hq.
  { split; intros name;
      (split; [intros H; inversion H | intros [H _]; inversion H]). }
  apply mainopts_parse_done in Hparse.
  destruct Hparse as (out & t1 & uid & user & t2 & gid & group & size
                      & _ & Ho & Hg & Hc & _ & _ & Hopts).
  apply parse_owner_name in Ho. apply parse_group_name in Hg.
  assert (Hout : Opts.outputstream opts = Some out) by (subst opts; reflexivity).
  assert (Huser : Opts.username opts = user) by (subst opts; reflexivity).
  assert (Hgroup : Opts.groupname opts = group) by (subst opts; reflexivity).
  clear Hopts.
  destruct (dcp_main_header opts argv) as [Hh | (digests & Hh)]; rewrite Hh.
  { split; intros name;
      (split; [intros H; inversion H | intros [H _]; inversion H]). }
  rewrite Hout.
  pose proof (print_metadata_name_lines out argv opts digests) as [Hu Hgr].
  pose proof (print_metadata_tag_line out argv opts digests) as Htag.
  rewrite Huser in Hu. rewrite Hgroup in Hgr.
  split; intros name.
  - rewrite Hu, Ho. destruct (owner_given info); split.
    + intros H. injection H as <-. auto.
    + intros [_ [[_ <-] | [H _]]]; [reflexivity | discriminate H].
    + intros H. auto.
    + intros [_ [[H _] | [_ H]]]; [discriminate H | exact H].
  - rewrite Hgr, Hg. destruct (group_given info); split.
    + intros H. injection H as <-. auto.
    + intros [_ [[_ <-] | [H _]]]; [reflexivity | discriminate H].
    + intros H. auto.
    + intros [_ [[H _] | [_ H]]]; [discriminate H | exact H].
Qed.

(** ** The destination and the copy engine *)

(** A run that gets past its index, gets its output context and whose
    [prepare] returns 0 starts the copy engine, once, on what [prepare]
    handed back, or on the destination as given when that is nothing. *)
Lemma dcp_main_starts (opts : mainopts) (argv : list string)
    (t : list event) (newdest : option string) :
  index_ready opts ->
  io_dcp_processor_ctx_create w (Opts.outputstream opts) = true ->
  prepare (Opts.files opts) (Opts.filecount opts) (Opts.dest opts)
  = (t, Done (0, newdest)) ->
  exists dcpopts,
    dcp_calls (trace (dcp_main opts argv))
    = [(match newdest with
        | Some d => d
        | None => Opts.dest opts
        end, dcpopts)].
Proof.
  intros Hready Hctx Hprep.
  assert (H : exists ti idx digests,
             dcp_calls ti = [] /\
             (Opts.inputs opts = None /\ ti = [] /\ idx = None /\
              digests = Opts.digests opts \/
              (exists paths i,
                  Opts.inputs opts = Some paths /\
                  io_index_digest_peek w paths (Opts.digests opts)
                  = Some digests /\
                  build_index digests paths = (ti, Done i) /\
                  idx = Some i))).
  { destruct Hready as [Hin | (paths & digests & ti & i & Hin & Hpeek & Hb)].
    - exists [], None, (Opts.digests opts). split; [reflexivity |]. auto.
    - exists ti, (Some i), digests. split; [| right; eauto 10].
      pose proof (build_index_trace digests paths) as Htr.
      rewrite Hb in Htr. apply index_only_quiet in Htr. apply Htr. }
  destruct H as (ti & idx & digests & Hti & Hcase).
  destruct (dcp_main_cases opts argv ti idx digests Hcase)
    as (th & tp & r & nd & Hth & Hp & Heq).
  rewrite Hprep in Hp. injection Hp as <- <- <-.
  apply print_metadata_parts in Hth. destruct Hth as (Hth & _).
  apply prepare_parts in Hprep. destruct Hprep as (Htp & _).
  cbv zeta in Heq. rewrite Heq, Hctx. cbn [Z.eqb trace fst].
  eexists. rewrite !dcp_calls_app, Hti, Hth, Htp. reflexivity.
Qed.

(** X6. [dcp src dest] and [dcp src dest/src], with [src] and [dest]
    directories, in runs that get past their index and get their output
    context: the first starts the copy engine, once, on dest/src; the
    second starts it on dest/src as well when dest/src does not exist
    yet, and on dest/src/src, one level deeper, when dest/src already is
    a directory.  (src after the slash is [basename] of the operand.) *)
Theorem nesting_equivalence
    (opts opts' : mainopts) (argv argv' : list string) (src dest : string) :
  Opts.filecount opts = 1 -> Opts.filecount opts' = 1 ->
  nth 0 (Opts.files opts) EmptyString = src ->
  nth 0 (Opts.files opts') EmptyString = src ->
  Opts.dest opts = dest -> Opts.dest opts' = nested dest src ->
  is_dir src = true -> is_dir dest = true ->
  index_ready opts -> index_ready opts' ->
  io_dcp_processor_ctx_create w (Opts.outputstream opts) = true ->
  io_dcp_processor_ctx_create w (Opts.outputstream opts') = true ->
  (exists dcpopts,
      dcp_calls (trace (dcp_main opts argv)) = [(nested dest src, dcpopts)]) /\
  (stat w (nested dest src) = StatErr ENOENT ->
   prepare (Opts.files opts') 1 (nested dest src) = ([], Done (0, None)) /\
   exists dcpopts,
     dcp_calls (trace (dcp_main opts' argv'))
     = [(nested dest src, dcpopts)]) /\
  (is_dir (nested dest src) = true ->
   exists dcpopts,
     dcp_calls (trace (dcp_main opts' argv'))
     = [(nested (nested dest src) src, dcpopts)]).
Proof.
  intros Hc Hc' Hs Hs' Hd Hd' Hsrc Hdest Hready Hready' Hctx Hctx'.
  assert (Hnest : forall files dst,
             nth 0 files EmptyString = src -> is_dir dst = true ->
             prepare files 1 dst = ([], Done (0, Some (nested dst src)))).
  { intros files dst Hf Hdst. unfold prepare, is_dir, nested, ends_in_slash in *.
    rewrite Hf. cbn [Z.eqb Pos.eqb].
    destruct (stat w src) as [m | e]; [| discriminate]. rewrite Hsrc.
    destruct (stat w dst) as [m' | e']; [| discriminate]. rewrite Hdst.
    destruct (last_char dst) as [c |]; [destruct (Ascii.eqb c "/") |];
      reflexivity. }
  split; [| split].
  - destruct (dcp_main_starts opts argv [] (Some (nested dest src)) Hready Hctx)
      as (o & Ho).
    + rewrite Hc, Hd. apply Hnest; assumption.
    + exists o. exact Ho.
  - intros Hnew.
    assert (Hp : prepare (Opts.files opts') 1 (nested dest src)
                 = ([], Done (0, None))).
    { unfold prepare. unfold is_dir in Hsrc. rewrite Hs'. cbn [Z.eqb Pos.eqb].
      destruct (stat w src) as [m | e]; [| discriminate].
      rewrite Hsrc, Hnew. reflexivity. }
    split; [exact Hp |].
    destruct (dcp_main_starts opts' argv' [] None Hready' Hctx') as (o & Ho).
    + rewrite Hc', Hd'. exact Hp.
    + exists o. rewrite Ho, Hd'. reflexivity.
  - intros Hnew.
    destruct (dcp_main_starts opts' argv' []
                (Some (nested (nested dest src) src)) Hready' Hctx')
      as (o & Ho).
    + rewrite Hc', Hd'. apply Hnest; assumption.
    + exists o. exact Ho.
Qed.

(** ** Digest masks, continued *)

Section MaskUse.

(** Each algorithm is one bit of the mask, no two the same, and
    [DGST_ALL] is the four of them. *)
Hypothesis DGST_one : forall a, exists k, 0 <= k /\ DGST a = 2 ^ k.
Hypothesis DGST_apart : forall a b, DGST a = DGST b -> a = b.
Hypothesis DGST_ALL_four :
  DGST_ALL = Z.lor (Z.lor (Z.lor DGST_MD5 DGST_SHA1) DGST_SHA256) DGST_SHA512.

Lemma has_zero (a : digest_t) : has a 0 = false.
Proof. rewrite has_spec, Z.land_0_l. reflexivity. Qed.

Lemma has_lor_eq (a : digest_t) (x y : Z) :
  has a (Z.lor x y) = has a x || has a y.
Proof.
  rewrite !has_spec, Z.land_lor_distr_l.
  destruct (Z.eqb_spec (Z.land x (DGST a)) 0) as [-> | Hx].
  - rewrite Z.lor_0_l. reflexivity.
  - simpl. apply negb_true_iff, Z.eqb_neq. rewrite Z.lor_eq_0_iff. tauto.
Qed.

Lemma has_DGST (a b : digest_t) :
  has a (DGST b) = (ordinal a =? ordinal b)%nat.
Proof.
  destruct (Nat.eqb_spec (ordinal a) (ordinal b)) as [E | E].
  - assert (a = b) as -> by (destruct a, b; simpl in E; congruence).
    apply (has_self DGST_one).
  - rewrite has_spec. apply negb_false_iff, Z.eqb_eq.
    destruct (DGST_one a) as (ka & Ha & Ea), (DGST_one b) as (kb & Hb & Eb).
    assert (ka <> kb).
    { intros ->. apply E. f_equal. apply DGST_apart. congruence. }
    rewrite Ea, Eb. apply Z.bits_inj'. intros n Hn.
    rewrite Z.land_spec, !Z.pow2_bits_eqb, Z.bits_0 by lia.
    destruct (Z.eqb_spec kb n), (Z.eqb_spec ka n); try reflexivity. lia.
Qed.

Lemma parse_digests_has_eq (info : cmdline_info) (a : digest_t) :
  has a (parse_digests info)
  = all_flag info || flag_of a info
    || ((ordinal a =? 0)%nat
        && negb (md5_flag info || sha1_flag info || sha256_flag info
                 || sha512_flag info)).
Proof.
  unfold parse_digests, flag_of. rewrite DGST_ALL_four.
  change DGST_MD5 with (DGST MD5). change DGST_SHA1 with (DGST SHA1).
  change DGST_SHA256 with (DGST SHA256). change DGST_SHA512 with (DGST SHA512).
  destruct (all_flag info).
  { rewrite !has_lor_eq, !has_DGST. destruct a; reflexivity. }
  pose proof (lor_DGST_nonzero DGST_one) as Hnz.
  destruct (md5_flag info), (sha1_flag info), (sha256_flag info),
    (sha512_flag info);
    match goal with
    | |- context [if ?x =? 0 then _ else _] =>
        destruct (Z.eqb_spec x 0) as [E | E]
    end;
    try (exfalso; revert E; solve [apply Hnz | exact (fun H => E eq_refl)
                                   | intros E; apply E; reflexivity]);
    rewrite ?has_lor_eq, ?has_DGST, ?has_zero; destruct a; reflexivity.
Qed.

(** X18. An algorithm is in the mask of the command line exactly when
    the "all" flag is set, or its own flag is set, or it is MD5 and no
    algorithm flag is set at all. *)
Theorem parse_digests_has (info : cmdline_info) (a : digest_t) :
  has a (parse_digests info) = true <->
  all_flag info = true \/ flag_of a info = true \/
  a = MD5 /\ md5_flag info = false /\ sha1_flag info = false /\
  sha256_flag info = false /\ sha512_flag info = false.
Proof.
  rewrite parse_digests_has_eq. unfold flag_of.
  destruct (all_flag info), (md5_flag info), (sha1_flag info),
    (sha256_flag info), (sha512_flag info), a; simpl;
    intuition (discriminate || auto).
Qed.

(** X19. The copy engine is never started by [main] with an empty mask:
    some algorithm is in the mask it gets, so every copied file gets at
    least one digest. *)
Theorem main_mask_not_empty
    (fuel : nat) (argv : list string) (info : cmdline_info)
    (dest : string) (dcpopts : dcp_options) :
  In (dest, dcpopts) (dcp_calls (trace (main fuel argv info))) ->
  exists a, has a (DcpOpts.digests dcpopts) = true.
Proof.
  intros Hcall.
  destruct (main_calls fuel argv info) as [[Hq _] | (t & opts & Hparse & Hq & _)];
    rewrite Hq in Hcall; [contradiction |].
  apply mainopts_parse_done in Hparse.
  destruct Hparse as (name & t1 & uid & user & t2 & gid & group & size
                      & _ & _ & _ & _ & _ & _ & Hopts).
  destruct (dcp_main_calls opts argv) as [Hnil | (idx & Hone)];
    [rewrite Hnil in Hcall; contradiction |].
  rewrite Hone in Hcall. destruct Hcall as [H | []].
  injection H as _ <-. subst opts. cbn [DcpOpts.digests Opts.digests].
  assert (Hin : forall a,
             has a (parse_digests info)
             = all_flag info || flag_of a info
               || ((ordinal a =? 0)%nat
                   && negb (md5_flag info || sha1_flag info
                            || sha256_flag info || sha512_flag info)))
    by (intros a; apply parse_digests_has_eq).
  unfold flag_of in Hin.
  destruct (all_flag info), (md5_flag info), (sha1_flag info),
    (sha256_flag info), (sha512_flag info);
    first [ exists MD5; rewrite Hin; reflexivity
          | exists SHA1; rewrite Hin; reflexivity
          | exists SHA256; rewrite Hin; reflexivity
          | exists SHA512; rewrite Hin; reflexivity ].
Qed.

End MaskUse.

(** ** Decimal cache sizes *)

Ltac digit_case IH Hrest acc z p :=
  cbn [scan_digits]; change (digit_of _) with (Some z); cbv beta iota;
  change (z <? 10) with true; cbv beta iota;
  replace (Z.pos acc * 10 + z) with (Zpos p) by lia;
  rewrite IH by exact Hrest; reflexivity.

Lemma scan_uint_acc (d : Decimal.uint) :
  forall (acc : positive) (rest : string),
    stops_decimal rest ->
    scan_digits 10 (NilEmpty.string_of_uint d +++ rest) (Zpos acc)
    = (Zpos (Pos.of_uint_acc d acc), Decimal.nb_digits d).
Proof.
  induction d; intros acc rest Hrest;
    cbn [NilEmpty.string_of_uint String.append].
  - apply Hrest.
  - digit_case IHd Hrest acc 0 (Pos.mul 10 acc).
  - digit_case IHd Hrest acc 1 (Pos.add 1 (Pos.mul 10 acc)).
  - digit_case IHd Hrest acc 2 (Pos.add 2 (Pos.mul 10 acc)).
  - digit_case IHd Hrest acc 3 (Pos.add 3 (Pos.mul 10 acc)).
  - digit_case IHd Hrest acc 4 (Pos.add 4 (Pos.mul 10 acc)).
  - digit_case IHd Hrest acc 5 (Pos.add 5 (Pos.mul 10 acc)).
  - digit_case IHd Hrest acc 6 (Pos.add 6 (Pos.mul 10 acc)).
  - digit_case IHd Hrest acc 7 (Pos.add 7 (Pos.mul 10 acc)).
  - digit_case IHd Hrest acc 8 (Pos.add 8 (Pos.mul 10 acc)).
  - digit_case IHd Hrest acc 9 (Pos.add 9 (Pos.mul 10 acc)).
Qed.

Lemma get_after_uint (d : Decimal.uint) (rest : string) :
  String.get (Decimal.nb_digits d) (NilEmpty.string_of_uint d +++ rest)
  = String.get 0 rest.
Proof. induction d; cbn; auto. Qed.

Lemma to_uint_no_leading_zero (p : positive) (d : Decimal.uint) :
  Pos.to_uint p <> Decimal.D0 d.
Proof.
  intros E.
  pose proof (DecimalPos.Unsigned.to_of (Pos.to_uint p)) as H.
  rewrite DecimalPos.Unsigned.of_to in H. cbn [N.to_uint] in H.
  rewrite E in H. unfold Decimal.unorm in H. cbn [Decimal.nzhead] in H.
  pose proof (DecimalFacts.nb_digits_nzhead d) as Hlen.
  destruct (Decimal.nzhead d) eqn:Hnz;
    try (apply (f_equal Decimal.nb_digits) in H; cbn in H, Hlen; lia).
  injection H as ->. apply (DecimalPos.Unsigned.to_uint_nonzero p E).
Qed.

(** [strtol] reads back a positive number printed with ["%zu"], whatever
    non-digit follows. *)
Lemma strtol_fmt_zu (p : positive) (rest : string) :
  stops_decimal rest ->
  Zpos p <= LONG_MAX ->
  strtol (fmt_zu (Zpos p) +++ rest)
  = (Zpos p, Decimal.nb_digits (Pos.to_uint p)) /\
  String.get (Decimal.nb_digits (Pos.to_uint p)) (fmt_zu (Zpos p) +++ rest)
  = String.get 0 rest /\
  Decimal.nb_digits (Pos.to_uint p) <> O.
Proof.
  intros Hrest Hmax. unfold fmt_zu. cbn [Z.to_N N.to_uint].
  pose proof (DecimalPos.Unsigned.of_to p) as Hval.
  pose proof (to_uint_no_leading_zero p) as Hlead.
  pose proof (DecimalPos.Unsigned.to_uint_nonnil p) as Hnil.
  destruct (Pos.to_uint p) as [| d | d | d | d | d | d | d | d | d | d] eqn:E;
    [contradiction | exfalso; apply (Hlead d eq_refl) | ..];
    (split; [| split; [apply (get_after_uint (_ d)) | discriminate]]);
    cbn [NilZero.string_of_uint NilEmpty.string_of_uint String.append];
    unfold strtol; cbn [count_space]; change (isspace _) with false;
    cbn -[scan_digits Z.max Z.min Z.mul Z.add Z.opp LONG_MAX LONG_MIN];
    cbn [scan_digits];
    match goal with
    | |- context [digit_of ?c] =>
        let v := eval vm_compute in (digit_of c) in
        change (digit_of c) with v
    end; cbv beta iota;
    match goal with
    | |- context [?z <? 10] => change (z <? 10) with true
    end; cbv beta iota; cbn [Z.mul Z.add Pos.add];
    rewrite scan_uint_acc by exact Hrest;
    cbn [Pos.of_uint] in Hval; injection Hval as ->;
    cbn [Nat.add Decimal.nb_digits]; f_equal;
    unfold LONG_MIN in *; lia.
Qed.

Lemma cache_size_suffix (n : Z) (c : ascii) (mult : Z) (tail : string) :
  0 <= n <= LONG_MAX ->
  In (c, mult) cache_suffixes ->
  parse_cache_size_val (fmt_zu n +++ String c tail)
  = ([], Done (to_size_t (n * mult))).
Proof.
  intros Hn Hc. destruct n as [| p | p]; [| | lia].
  - unfold cache_suffixes in Hc. simpl in Hc.
    repeat (destruct Hc as [Hc | Hc]; [injection Hc as <- <-; reflexivity |]).
    contradiction.
  - assert (Hstop : stops_decimal (String c tail)).
    { unfold cache_suffixes in Hc. simpl in Hc. intros acc.
      repeat (destruct Hc as [Hc | Hc];
              [injection Hc as <- <-; reflexivity |]).
      contradiction. }
    destruct (strtol_fmt_zu p (String c tail) Hstop) as (Hs & Hg & Hnz);
      [lia |].
    unfold parse_cache_size_val, suffix_at. rewrite Hs.
    destruct (Decimal.nb_digits (Pos.to_uint p)) as [| k] eqn:E;
      [contradiction |].
    rewrite Hg. cbn [String.get].
    rewrite (to_size_t_small (Zpos p)) by (unfold LONG_MAX in Hn; lia).
    unfold cache_suffixes in Hc. simpl in Hc.
    repeat (destruct Hc as [Hc | Hc];
            [injection Hc as <- <-; reflexivity |]).
    contradiction.
Qed.

(** X20. A cache size written as a decimal number from 0 to [LONG_MAX]
    is that number; followed by one of k, K, m, M, g, G it is the number
    times 1024, 1024 * 1024 or 1024 * 1024 * 1024, reduced to [size_t];
    and a number above 0 followed by any other character that is not a
    digit ends the run with a failure status. *)
Theorem parse_cache_size_decimal (n : Z) :
  0 <= n <= LONG_MAX ->
  parse_cache_size_val (fmt_zu n) = ([], Done n) /\
  (forall c mult,
      In (c, mult) cache_suffixes ->
      parse_cache_size_val (fmt_zu n +++ String c EmptyString)
      = ([], Done (to_size_t (n * mult)))) /\
  (forall c tail,
      0 < n ->
      stops_decimal (String c tail) ->
      is_cache_suffix c = false ->
      parse_cache_size_val (fmt_zu n +++ String c tail)
      = ([], Exit EXIT_FAILURE
               ("invalid cache suffix: '" +++ (fmt_zu n +++ String c tail)
                +++ "'"))).
Proof.
  intros Hn. split; [| split].
  - destruct n as [| p | p]; [reflexivity | | lia].
    destruct (strtol_fmt_zu p EmptyString) as (Hs & Hg & Hnz);
      [intros acc; reflexivity | lia |].
    assert (Happ : forall s, s +++ EmptyString = s).
    { induction s as [| a s IH]; cbn; congruence. }
    rewrite Happ in Hs, Hg.
    unfold parse_cache_size_val, suffix_at. rewrite Hs.
    destruct (Decimal.nb_digits (Pos.to_uint p)) as [| k] eqn:E;
      [contradiction |].
    rewrite Hg. cbn [String.get].
    rewrite to_size_t_small by (unfold LONG_MAX in Hn; lia). reflexivity.
  - intros c mult Hc. apply cache_size_suffix; assumption.
  - intros c tail Hpos Hstop Hc. destruct n as [| p | p]; try lia.
    destruct (strtol_fmt_zu p (String c tail) Hstop) as (Hs & Hg & Hnz);
      [lia |].
    unfold parse_cache_size_val, suffix_at. rewrite Hs.
    destruct (Decimal.nb_digits (Pos.to_uint p)) as [| k] eqn:E;
      [contradiction |].
    rewrite Hg. cbn [String.get].
    unfold is_cache_suffix, cache_suffixes in Hc. cbn in Hc.
    repeat (apply orb_false_elim in Hc; destruct Hc as [?H Hc]).
    repeat match goal with
      | H : Ascii.eqb c _ = false |- _ => rewrite H; clear H
      end.
    reflexivity.
Qed.

(** X21. Whatever follows a suffix letter is not looked at: a decimal
    number, one of k, K, m, M, g, G and then any characters at all is
    taken as the number times the multiplier of the letter. *)
Theorem parse_cache_size_tail_ignored
    (n : Z) (c : ascii) (mult : Z) (tail : string) :
  0 <= n <= LONG_MAX ->
  In (c, mult) cache_suffixes ->
  parse_cache_size_val (fmt_zu n +++ String c tail)
  = parse_cache_size_val (fmt_zu n +++ String c EmptyString) /\
  parse_cache_size_val (fmt_zu n +++ String c tail)
  = ([], Done (to_size_t (n * mult))).
Proof.
  intros Hn Hc. rewrite !(cache_size_suffix n c mult) by assumption. auto.
Qed.

End Main.

(* ------------------------------------------------------------------ *)
(** * The properties at the sample inputs *)

Import Sample.

(** Masks with MD5, SHA1, SHA256, SHA512 at bits 1, 2, 4, 8. *)
Lemma DGST_one_bit :
  forall a, exists k, 0 <= k /\ DGST 1 2 4 8 a = 2 ^ k.
Proof.
  intros a. destruct a; [exists 0 | exists 1 | exists 2 | exists 3];
    split; try lia; reflexivity.
Qed.

Example strtol_dec : strtol "4096" = (4096, 4%nat).
Proof. reflexivity. Qed.
Example strtol_suffix : strtol "  -12k" = (-12, 5%nat).
Proof. reflexivity. Qed.
Example strtol_hex : strtol "0x1F g" = (31, 4%nat).
Proof. reflexivity. Qed.
Example strtol_oct : strtol "010" = (8, 3%nat).
Proof. reflexivity. Qed.
Example strtol_0x : strtol "0xz" = (0, 1%nat).
Proof. reflexivity. Qed.
Example strtol_none : strtol "k" = (0, 0%nat).
Proof. reflexivity. Qed.
Example strtol_sat : strtol "99999999999999999999" = (LONG_MAX, 20%nat).
Proof. reflexivity. Qed.
Example basename_path : basename "a/b/src" = "src"%string.
Proof. reflexivity. Qed.
Example basename_plain : basename "src" = "src"%string.
Proof. reflexivity. Qed.
Example basename_slash : basename "a/src/" = EmptyString.
Proof. reflexivity. Qed.
Example fmt_zu_12 : fmt_zu 12 = "12"%string.
Proof. reflexivity. Qed.

(** The cache size: suffixes, and the two fatal cases. *)
Example cache_size_plain : parse_cache_size_val "4096" = ([], Done 4096).
Proof. reflexivity. Qed.
Example cache_size_k : parse_cache_size_val "64K" = ([], Done 65536).
Proof. reflexivity. Qed.
Example cache_size_m : parse_cache_size_val "2m" = ([], Done 2097152).
Proof. reflexivity. Qed.
Example cache_size_g : parse_cache_size_val "1G" = ([], Done 1073741824).
Proof. reflexivity. Qed.
Example cache_size_no_number :
  parse_cache_size_val "big"
  = ([], Exit EXIT_FAILURE "invalid cache size: 'big'").
Proof. reflexivity. Qed.
Example cache_size_bad_suffix :
  parse_cache_size_val "12x"
  = ([], Exit EXIT_FAILURE "invalid cache suffix: '12x'").
Proof. reflexivity. Qed.

(** C4. [--cache-size=10kb]: the characters after a suffix letter are not
    looked at, and the value is taken as 10 * 1024 where the suffix [kb]
    should have ended the run; [10kx] and [1G!] are taken the same way. *)
Theorem cache_size_suffix_tail_ignored :
  forall w,
    parse_cache_size w
      (cmdline ["src"; "dst"]%string None None None None (Some "10kb"%string))
    = ([], Done 10240) /\
    parse_cache_size_val "10kx" = ([], Done 10240) /\
    parse_cache_size_val "1G!" = ([], Done 1073741824).
Proof. intros w. repeat split. Qed.

(** C1. [dcp --input prev.out src dst], no algorithm flag, [prev.out]
    declaring sha1: the index is keyed by sha1 (mask 2) and the header
    names sha1, but the copy engine is started with the command-line
    default md5 (mask 1). *)
Theorem peeked_digests_not_passed_to_dcp :
  let info := cmdline ["src"; "dst"]%string (Some ["prev.out"%string])
                None None None None in
  let t := trace (main 1 2 4 8 15 "1.0" plain 2 argv info) in
  parse_digests 1 2 4 8 15 info = 1 /\
  io_index_digest_peek plain ["prev.out"%string] 1 = Some 2 /\
  In (IndexCreate 2) t /\
  In (io_metadata_put_strs "digests    " ["sha1"%string] ", ") (header t) /\
  map (fun c => DcpOpts.digests (snd c)) (dcp_calls t) = [1] /\
  outcome (main 1 2 4 8 15 "1.0" plain 2 argv info) = Done 0.
Proof.
  vm_compute. repeat split; auto 10.
Qed.

(** C2 at the mask sha1|sha256. *)
Lemma build_index_lowest_ordinal_witness :
  has 1 2 4 8 SHA1 6 = true /\
  build_index_type 1 2 4 8 6 = Some 2 /\
  build_index 1 2 4 8 plain 0 ["prev.out"%string]
  = ([], Exit EXIT_FAILURE "corrput parsing of digest types from inputs").
Proof.
  destruct (build_index_lowest_ordinal 1 2 4 8 plain DGST_one_bit 6
              ["prev.out"%string]) as (Hlow & Hempty & _).
  split; [reflexivity |]. split; [| exact Hempty].
  destruct (Hlow SHA1) as [Hty _].
  - reflexivity.
  - intros b; destruct b; simpl; intros H; try lia; discriminate H.
  - exact Hty.
Defined.

(** C5 at [--sha1 --sha512], at [--all] and at no flag. *)
Lemma parse_digests_mask_witness :
  parse_digests 1 2 4 8 15 (flags false false true false true) = 10 /\
  parse_digests 1 2 4 8 15 (flags true false true false false) = 15 /\
  parse_digests 1 2 4 8 15 (flags false false false false false) = 1.
Proof.
  split; [| split].
  - apply (parse_digests_mask 1 2 4 8 15 DGST_one_bit eq_refl
             (flags false false true false true)); reflexivity.
  - apply (parse_digests_mask 1 2 4 8 15 DGST_one_bit eq_refl
             (flags true false true false false)); reflexivity.
  - apply (parse_digests_mask 1 2 4 8 15 DGST_one_bit eq_refl
             (flags false false false false false)); reflexivity.
Defined.

(** C6 at [dcp src dst] and at [dcp --owner=bob --group=wheel src dst],
    neither name being known. *)
Lemma owner_group_fallback_witness :
  parse_owner plain (cmdline ["src"; "dst"]%string None None None None None)
  = ([], Done (1000, None)) /\
  parse_group plain (cmdline ["src"; "dst"]%string None None None None None)
  = ([], Done (100, None)) /\
  parse_owner plain
    (cmdline ["src"; "dst"]%string None None (Some "bob"%string)
       (Some "wheel"%string) None)
  = ([Warn "uid lookup for 'bob' failed defaulting to euid"],
     Done (1000, Some "bob"%string)) /\
  parse_group with_env
    (cmdline ["src"; "dst"]%string None None None None None)
  = ([Warn "gid lookup for 'wheel' failed defaulting to egid"],
     Done (100, Some "wheel"%string)).
Proof.
  destruct (owner_group_fallback plain
              (cmdline ["src"; "dst"]%string None None None None None))
    as (Howner & Hgroup & _).
  destruct (owner_group_fallback plain
              (cmdline ["src"; "dst"]%string None None (Some "bob"%string)
                 (Some "wheel"%string) None))
    as (_ & _ & Hflag & _).
  destruct (owner_group_fallback with_env
              (cmdline ["src"; "dst"]%string None None None None None))
    as (_ & _ & _ & _ & _ & Henv).
  split; [| split; [| split]].
  - apply Howner; reflexivity.
  - apply Hgroup; reflexivity.
  - apply Hflag; reflexivity.
  - apply (Henv "wheel"%string); reflexivity.
Defined.

(** C7 with [DCP_OWNER=alice], [DCP_GROUP=wheel], [DCP_CACHE_SIZE=64k] in
    the environment: first with [--owner=bob --group=staff
    --cache-size=1m], then without flags. *)
Lemma flag_overrides_environment_witness :
  let flagged := cmdline ["src"; "dst"]%string None None (Some "bob"%string)
                   (Some "staff"%string) (Some "1m"%string) in
  let bare := cmdline ["src"; "dst"]%string None None None None None in
  outcome (parse_owner with_env flagged) = Done (1000, Some "bob"%string) /\
  outcome (parse_group with_env flagged) = Done (20, Some "staff"%string) /\
  parse_cache_size with_env flagged = ([], Done 1048576) /\
  outcome (parse_owner with_env bare) = Done (501, Some "alice"%string) /\
  outcome (parse_group with_env bare) = Done (100, Some "wheel"%string) /\
  parse_cache_size with_env bare = ([], Done 65536).
Proof.
  intros flagged bare.
  destruct (flag_overrides_environment with_env flagged)
    as (Ho & _ & Hg & _ & Hc & _).
  destruct (flag_overrides_environment with_env bare)
    as (_ & Ho' & _ & Hg' & _ & Hc').
  split; [| split; [| split; [| split; [| split]]]].
  - apply Ho. reflexivity.
  - apply Hg. reflexivity.
  - rewrite Hc by reflexivity. reflexivity.
  - apply (Ho' "alice"%string); reflexivity.
  - apply (Hg' "wheel"%string); reflexivity.
  - rewrite (Hc' "64k"%string) by reflexivity. reflexivity.
Defined.

(** C10 at [dcp], [dcp src] and [dcp --output=run.out a b dst]. *)
Lemma mainopts_parse_operands_witness :
  mainopts_parse 1 2 4 8 15 plain 1
    (cmdline [] None None None None None)
  = ([], Exit EXIT_FAILURE "missing file operand") /\
  mainopts_parse 1 2 4 8 15 plain 1
    (cmdline ["src"%string] None None None None None)
  = ([], Exit EXIT_FAILURE "missing destination file operand after 'src'") /\
  exists t opts,
    mainopts_parse 1 2 4 8 15 plain 1
      (cmdline ["a"; "b"; "dst"]%string None (Some "run.out"%string)
         None None None)
    = (t, Done opts) /\
    Opts.dest opts = "dst"%string /\ sources opts = ["a"; "b"]%string.
Proof.
  split; [| split].
  - destruct (mainopts_parse_operands 1 2 4 8 15 plain 1
                (cmdline [] None None None None None)) as (H & _).
    apply H. reflexivity.
  - destruct (mainopts_parse_operands 1 2 4 8 15 plain 1
                (cmdline ["src"%string] None None None None None))
      as (_ & H & _).
    apply (H "src"%string). reflexivity.
  - destruct (mainopts_parse_operands 1 2 4 8 15 plain 1
                (cmdline ["a"; "b"; "dst"]%string None
                   (Some "run.out"%string) None None None))
      as (_ & _ & H).
    destruct (H ["a"; "b"]%string "dst"%string) as [Hdone Hret].
    + reflexivity.
    + discriminate.
    + vm_compute. discriminate.
    + destruct Hret as (t & opts & Heq); try reflexivity.
      exists t, opts. split; [exact Heq |].
      apply Hdone. rewrite Heq. reflexivity.
Defined.

(** C3. [dcp src/ dst], with [src/] and [dst] directories: [basename]
    is the one of [<string.h>], which does not strip a trailing slash
    and returns what follows the last one, here the empty string.
    [prepare] hands back [dst/], and the run starts the copy engine,
    once, on [dst/], not on [dst/src]; [dcp src/ dst/src] and
    [dcp src/ dst/src/] start it on [dst/src] and [dst/src/], so the two
    commands of the comment above [prepare] do not work on the same
    tree.  Without the trailing slash, [dcp src dst] goes to [dst/src]. *)
Theorem prepare_trailing_slash_not_nested :
  let run source dest :=
    main 1 2 4 8 15 "1.0" slashed 2 ["dcp"; source; dest]%string
      (cmdline [source; dest] None None None None None) in
  let starts source dest := map fst (dcp_calls (trace (run source dest))) in
  is_dir slashed "src/" = true /\
  is_dir slashed "dst" = true /\
  basename "src/" = EmptyString /\
  nested "dst" "src/" = "dst/"%string /\
  prepare slashed ["src/"; "dst"]%string 1 "dst"
  = ([], Done (0, Some "dst/"%string)) /\
  outcome (run "src/" "dst")%string = Done 0 /\
  starts "src/"%string "dst"%string = ["dst/"%string] /\
  starts "src/"%string "dst/src"%string = ["dst/src"%string] /\
  starts "src/"%string "dst/src/"%string = ["dst/src/"%string] /\
  starts "src"%string "dst"%string = ["dst/src"%string].
Proof.
  vm_compute. repeat split.
Qed.

(** X22 at [dcp src dst] with both directories, at a destination that
    does not exist, and at a source that is a file. *)
Lemma prepare_nesting_witness :
  prepare plain ["src"; "dst"]%string 1 "dst"
  = ([], Done (0, Some "dst/src"%string)) /\
  prepare plain ["src"; "dst/"]%string 1 "dst/"
  = ([], Done (0, Some "dst/src"%string)) /\
  prepare plain ["src"; "new"]%string 1 "new" = ([], Done (0, None)) /\
  prepare plain ["notes.txt"; "dst"]%string 1 "dst" = ([], Done (0, None)) /\
  prepare plain ["src"; "notes.txt"; "dst"]%string 2 "dst"
  = ([], Done (0, None)) /\
  forall d o,
    In (d, o) (dcp_calls (trace (dcp_main 1 2 4 8 "1.0" plain (parsed None)
                                   argv))) ->
    d = "dst/src"%string.
Proof.
  split; [| split; [| split; [| split; [| split]]]].
  - destruct (prepare_nesting 1 2 4 8 "1.0" plain ["src"; "dst"]%string 1
                "dst") as (H & _).
    apply H; reflexivity.
  - destruct (prepare_nesting 1 2 4 8 "1.0" plain ["src"; "dst/"]%string 1
                "dst/") as (H & _).
    apply H; reflexivity.
  - destruct (prepare_nesting 1 2 4 8 "1.0" plain ["src"; "new"]%string 1
                "new") as (_ & _ & _ & _ & H & _).
    apply H; reflexivity.
  - destruct (prepare_nesting 1 2 4 8 "1.0" plain
                ["notes.txt"; "dst"]%string 1 "dst") as (_ & _ & _ & H & _).
    apply (H 33188); reflexivity.
  - destruct (prepare_nesting 1 2 4 8 "1.0" plain
                ["src"; "notes.txt"; "dst"]%string 2 "dst")
      as (_ & _ & H & _).
    apply H. discriminate.
  - intros d o H.
    destruct (prepare_nesting 1 2 4 8 "1.0" plain ["src"; "dst"]%string 1
                "dst") as (_ & _ & _ & _ & _ & Hrun).
    destruct (Hrun (parsed None) argv) as [_ Hd]; try reflexivity.
    apply (Hd d o H).
Defined.

(** C8 at [--input prev.out --input bad.out], at [--input junk.out], and
    at [--input prev.out --input md5only.out --input later.out], where
    the peek finds sha1 and only an index keyed by sha1 refuses
    [md5only.out]. *)
Lemma prior_manifest_failure_is_fatal_witness :
  outcome (dcp_main 1 2 4 8 "1.0" plain
             (parsed (Some ["prev.out"; "bad.out"]%string)) argv)
  = Exit EXIT_FAILURE "error building index with entries from 'bad.out'" /\
  dcp_calls (trace (dcp_main 1 2 4 8 "1.0" plain
                      (parsed (Some ["prev.out"; "bad.out"]%string)) argv))
  = [] /\
  header (trace (dcp_main 1 2 4 8 "1.0" plain
                   (parsed (Some ["junk.out"]%string)) argv))
  = [] /\
  io_index_read picky {| idx_type := 1; idx_read := [] |} "md5only.out"
  = true /\
  outcome (dcp_main 1 2 4 8 "1.0" picky
             (parsed (Some ["prev.out"; "md5only.out"; "later.out"]%string))
             argv)
  = Exit EXIT_FAILURE
      "error building index with entries from 'md5only.out'" /\
  index_reads (trace (dcp_main 1 2 4 8 "1.0" picky
                        (parsed (Some ["prev.out"; "md5only.out";
                                       "later.out"]%string)) argv))
  = ["prev.out"; "md5only.out"]%string /\
  header (trace (dcp_main 1 2 4 8 "1.0" picky
                   (parsed (Some ["prev.out"; "md5only.out";
                                  "later.out"]%string)) argv))
  = [] /\
  dcp_calls (trace (dcp_main 1 2 4 8 "1.0" picky
                      (parsed (Some ["prev.out"; "md5only.out";
                                     "later.out"]%string)) argv))
  = [].
Proof.
  split; [reflexivity |]. split; [| split; [| split; [reflexivity |]]].
  - destruct (prior_manifest_failure_is_fatal 1 2 4 8 "1.0" plain
                (parsed (Some ["prev.out"; "bad.out"]%string)) argv
                ["prev.out"; "bad.out"]%string) as (_ & _ & _ & _ & H).
    + reflexivity.
    + right. right. left. exists "bad.out"%string. split.
      * simpl. auto.
      * intros idx. reflexivity.
    + exact H.
  - destruct (prior_manifest_failure_is_fatal 1 2 4 8 "1.0" plain
                (parsed (Some ["junk.out"]%string)) argv ["junk.out"]%string)
      as (_ & _ & _ & H & _).
    + reflexivity.
    + left. reflexivity.
    + exact H.
  - split; [reflexivity |]. split; [reflexivity |].
    destruct (prior_manifest_failure_is_fatal 1 2 4 8 "1.0" picky
                (parsed (Some ["prev.out"; "md5only.out";
                               "later.out"]%string)) argv
                ["prev.out"; "md5only.out"; "later.out"]%string)
      as (_ & _ & _ & Hh & Hc).
    + reflexivity.
    + right. right. right. right.
      exists 2, 2, ["prev.out"%string], "md5only.out"%string,
        ["later.out"%string].
      repeat split.
    + split; [exact Hh | exact Hc].
Defined.

(** C9 as the spec has it fails twice.  At [dcp src dst] the command
    line and the algorithm names are in the header as joined strings,
    and no JSON line carries either key.  Where the current directory is
    not known, the header has no line for it at all. *)
Lemma header_not_as_claimed :
  let h := header (trace (print_metadata 1 2 4 8 plain (Some "dcp(1).out"%string)
                            "1.0" argv (parsed None) 1)) in
  let h' := header (trace (print_metadata 1 2 4 8 locked
                             (Some "dcp(1).out"%string) "1.0" argv
                             (parsed None) 1)) in
  In (io_metadata_put_strs "command    " ["dcp"; "src"; "dst"]%string " ") h /\
  In (io_metadata_put_strs "digests    " ["md5"%string] ", ") h /\
  ~ (forall key, In key ["command    "; "digests    "; "sources    "]%string ->
                 exists strs, In (io_metadata_put_json key strs) h) /\
  getcwd locked = None /\
  ~ (exists m, In m h' /\ meta_key m = "cwd        "%string).
Proof.
  intros h h'. split; [| split; [| split; [| split]]].
  - vm_compute. auto 10.
  - vm_compute. auto 10.
  - intros H. destruct (H "command    "%string) as (strs & Hin).
    + simpl. auto.
    + vm_compute in Hin.
      repeat match goal with
        | H : _ \/ _ |- _ => destruct H as [H | H]
        end; try discriminate Hin; contradiction.
  - reflexivity.
  - intros (m & Hin & Hkey). vm_compute in Hin.
    repeat match goal with
      | H : _ \/ _ |- _ => destruct H as [H | H]
      end; try contradiction; subst m; discriminate Hkey.
Qed.

(** C9 as amended, at [dcp src dst]. *)
Lemma print_metadata_header_witness :
  let h := header (trace (print_metadata 1 2 4 8 plain (Some "dcp(1).out"%string)
                            "1.0" argv (parsed None) 1)) in
  getcwd plain = Some "/home/alice"%string /\
  In (io_metadata_put_json "cwd        " ["/home/alice"%string]) h /\
  In (io_metadata_put_strs "digests    " ["md5"%string] ", ") h /\
  In (io_metadata_put_json "sources    " ["src"%string]) h.
Proof.
  intros h.
  destruct (print_metadata_header 1 2 4 8 "1.0" plain "dcp(1).out" argv
              (parsed None) 1)
    as (_ & _ & _ & _ & Hd & _ & Hcwd & Hs & _).
  split; [reflexivity |]. split; [| split].
  - apply Hcwd. reflexivity.
  - exact Hd.
  - exact Hs.
Defined.

(* ------------------------------------------------------------------ *)
(** * The further properties at the sample inputs *)

Lemma DGST_apart_1248 :
  forall a b, DGST 1 2 4 8 a = DGST 1 2 4 8 b -> a = b.
Proof. intros a b; destruct a, b; simpl; intros H; congruence. Qed.

(** X1 at [dcp src dst] where [dcp.out] exists. *)
Lemma parse_outputstream_exclusive_witness :
  let info := cmdline ["src"; "dst"]%string None None None None None in
  parse_outputstream plain 2 info
  = ([Create "dcp(1).out"], Done (Some "dcp(1).out"%string, "dcp(1).out"%string))
  /\ open_excl plain "dcp(1).out" = None.
Proof.
  intros info. split; [reflexivity |].
  destruct (parse_outputstream_exclusive plain 2 info [Create "dcp(1).out"]
              (Some "dcp(1).out"%string) "dcp(1).out" eq_refl eq_refl)
    as (_ & _ & H & _).
  exact H.
Defined.

(** X2 at the same command line, with room for five attempts. *)
Lemma parse_outputstream_first_free_witness :
  parse_outputstream plain 5
    (cmdline ["src"; "dst"]%string None None None None None)
  = ([Create "dcp(1).out"], Done (Some "dcp(1).out"%string, "dcp(1).out"%string)).
Proof.
  apply (parse_outputstream_first_free plain 1 5
           (cmdline ["src"; "dst"]%string None None None None None)).
  - reflexivity.
  - reflexivity.
  - intros k Hk. assert (k = 0%nat) as -> by lia. reflexivity.
  - reflexivity.
  - reflexivity.
  - lia.
Defined.

(** X3 in the directory that takes no new file. *)
Lemma parse_outputstream_cannot_create_witness :
  parse_outputstream locked 5
    (cmdline ["src"; "dst"]%string None None None None None)
  = ([], Exit EXIT_FAILURE "cannot create output file 'dcp(1).out'").
Proof.
  apply (parse_outputstream_cannot_create locked 1 5
           (cmdline ["src"; "dst"]%string None None None None None) 13).
  - reflexivity.
  - reflexivity.
  - intros k Hk. assert (k = 0%nat) as -> by lia. reflexivity.
  - reflexivity.
  - discriminate.
  - lia.
Defined.

(** X4 at [--owner=alice] and at [DCP_OWNER=alice], [--group=staff]. *)
Lemma owner_group_resolved_witness :
  parse_owner plain
    (cmdline ["src"; "dst"]%string None None (Some "alice"%string) None None)
  = ([], Done (501, Some "alice"%string)) /\
  parse_group with_env
    (cmdline ["src"; "dst"]%string None None None (Some "staff"%string) None)
  = ([], Done (20, Some "staff"%string)).
Proof.
  split.
  - destruct (owner_group_resolved plain
                (cmdline ["src"; "dst"]%string None None
                   (Some "alice"%string) None None)) as (H & _).
    apply (H "alice"%string 501); [left; split |]; reflexivity.
  - destruct (owner_group_resolved with_env
                (cmdline ["src"; "dst"]%string None None None
                   (Some "staff"%string) None)) as (_ & H & _).
    apply (H "staff"%string 20); [left; split |]; reflexivity.
Defined.

(** X5 at a source that does not exist. *)
Lemma prepare_result_witness :
  exists t newdest,
    prepare plain ["gone"; "dst"]%string 1 "dst" = (t, Done (-1, newdest)).
Proof.
  destruct (prepare_result plain ["gone"; "dst"]%string 1 "dst")
    as (t & r & newdest & Heq & _ & Hiff).
  exists t, newdest. rewrite Heq.
  assert (r = -1) as ->; [| reflexivity].
  apply Hiff. split; [reflexivity |]. left. exists ENOENT. reflexivity.
Defined.

(** X6 at [dcp src dst] and [dcp src dst/src]: first with [dst/src] not
    existing, then with [dst/src] left behind by an earlier run. *)
Lemma nesting_equivalence_witness :
  let calls w dest :=
    map fst (dcp_calls (trace (dcp_main 1 2 4 8 "1.0" w
                                 (parsed_at "src" dest None) argv))) in
  calls plain "dst"%string = ["dst/src"%string] /\
  calls plain "dst/src"%string = ["dst/src"%string] /\
  calls deep "dst"%string = ["dst/src"%string] /\
  calls deep "dst/src"%string = ["dst/src/src"%string].
Proof.
  intros calls. subst calls. cbv beta.
  destruct (nesting_equivalence 1 2 4 8 "1.0" plain
              (parsed_at "src" "dst" None) (parsed_at "src" "dst/src" None)
              argv argv "src" "dst"
              eq_refl eq_refl eq_refl eq_refl eq_refl eq_refl eq_refl eq_refl
              (or_introl eq_refl) (or_introl eq_refl) eq_refl eq_refl)
    as ((o1 & H1) & Hfresh & _).
  destruct (Hfresh eq_refl) as (_ & o2 & H2).
  destruct (nesting_equivalence 1 2 4 8 "1.0" deep
              (parsed_at "src" "dst" None) (parsed_at "src" "dst/src" None)
              argv argv "src" "dst"
              eq_refl eq_refl eq_refl eq_refl eq_refl eq_refl eq_refl eq_refl
              (or_introl eq_refl) (or_introl eq_refl) eq_refl eq_refl)
    as ((o3 & H3) & _ & Hdeep).
  destruct (Hdeep eq_refl) as (o4 & H4).
  rewrite H1, H2, H3, H4. repeat split.
Defined.

(** X7 at two readable manifests and the mask sha1|sha256. *)
Lemma build_index_ingests_all_witness :
  build_index 1 2 4 8 plain 6 ["prev.out"; "old.out"]%string
  = ([IndexCreate 2; IndexRead "prev.out"; IndexRead "old.out"],
     Done {| idx_type := 2; idx_read := ["prev.out"; "old.out"]%string |}).
Proof.
  destruct (build_index_ingests_all 1 2 4 8 plain 6
              ["prev.out"; "old.out"]%string) as [_ H].
  apply (H 2); try reflexivity.
  intros idx path [<- | [<- | []]]; reflexivity.
Defined.

(** X8 at a manifest that cannot be read between two that can. *)
Lemma build_index_stops_at_first_failure_witness :
  build_index 1 2 4 8 plain 6 ["prev.out"; "bad.out"; "later.out"]%string
  = ([IndexCreate 2; IndexRead "prev.out"; IndexRead "bad.out"],
     Exit EXIT_FAILURE "error building index with entries from 'bad.out'")
  /\
  exists pre path post,
    ["prev.out"; "bad.out"; "later.out"]%string = pre ++ path :: post /\
    io_index_read plain {| idx_type := 2; idx_read := pre |} path = false.
Proof.
  split; [reflexivity |].
  destruct (build_index_stops_at_first_failure 1 2 4 8 plain 6
              ["prev.out"; "bad.out"; "later.out"]%string
              [IndexCreate 2; IndexRead "prev.out"; IndexRead "bad.out"]
              EXIT_FAILURE
              "error building index with entries from 'bad.out'" eq_refl)
    as [_ [[Hn _] | [(ty & _ & Hc & _)
                    | (ty & pre & path & post & Hty & Hp & _ & _ & Hr)]]].
  - discriminate Hn.
  - discriminate Hc.
  - injection Hty as <-. exists pre, path, post. split; [exact Hp | exact Hr].
Defined.

(** X10 at [dcp src dst]. *)
Lemma dcp_main_without_inputs_witness :
  index_reads (trace (dcp_main 1 2 4 8 "1.0" plain (parsed None) argv)) = [].
Proof.
  apply (dcp_main_without_inputs 1 2 4 8 "1.0" plain (parsed None) argv
           eq_refl).
Defined.

(** X11 at [dcp --input prev.out src dst]. *)
Lemma dcp_main_with_inputs_witness :
  exists idx,
    idx_read idx = ["prev.out"%string] /\
    build_index_type 1 2 4 8 2 = Some (idx_type idx).
Proof.
  destruct (dcp_main_with_inputs 1 2 4 8 "1.0" plain
              (parsed (Some ["prev.out"%string])) argv ["prev.out"%string]
              "dst/src"
              {| DcpOpts.bufsize := 32768;
                 DcpOpts.digests := 1;
                 DcpOpts.uid := 1000;
                 DcpOpts.gid := 100;
                 DcpOpts.index :=
                   Some {| idx_type := 2; idx_read := ["prev.out"%string] |};
                 DcpOpts.verbose := false |} eq_refl)
    as (digests & idx & Hpeek & _ & Hty & Hrd & _).
  - vm_compute. auto 20.
  - exists idx. injection Hpeek as <-. auto.
Defined.

(** X12 at [dcp gone dst]. *)
Lemma dcp_main_prepare_failure_witness :
  outcome (dcp_main 1 2 4 8 "1.0" plain (parsed_at "gone" "dst" None) argv)
  = Exit EXIT_FAILURE "cannot prepare destination" /\
  In (io_metadata_put "File Generated by dcp DO NOT EDIT" None)
    (header (trace (dcp_main 1 2 4 8 "1.0" plain
                      (parsed_at "gone" "dst" None) argv))).
Proof.
  destruct (dcp_main_prepare_failure 1 2 4 8 "1.0" plain
              (parsed_at "gone" "dst" None) argv "dcp(1).out" ENOENT
              eq_refl eq_refl eq_refl eq_refl eq_refl) as (H & _ & H' & _).
  split; [exact H | exact H'].
Defined.

(** X13 where the current directory is not known. *)
Lemma print_metadata_lines_witness :
  In (Warn "cannot retrieve current working directory")
    (trace (print_metadata 1 2 4 8 locked (Some "dcp(1).out"%string) "1.0"
              argv (parsed None) 1)).
Proof.
  destruct (print_metadata_lines 1 2 4 8 "1.0" locked "dcp(1).out" argv
              (parsed None) 1) as (_ & _ & H).
  apply H. reflexivity.
Defined.

(** X14 at [dcp --cache-size=12x src dst]. *)
Lemma mainopts_parse_late_cache_error_witness :
  let info := cmdline ["src"; "dst"]%string None None None None
                (Some "12x"%string) in
  outcome (mainopts_parse 1 2 4 8 15 plain 2 info)
  = Exit EXIT_FAILURE "invalid cache suffix: '12x'" /\
  created (trace (mainopts_parse 1 2 4 8 15 plain 2 info))
  = ["dcp(1).out"%string].
Proof.
  intros info.
  destruct (mainopts_parse_late_cache_error 1 2 4 8 15 plain 2 info
              "dcp(1).out" EXIT_FAILURE "invalid cache suffix: '12x'")
    as (H & H' & _).
  - vm_compute. split; discriminate.
  - reflexivity.
  - reflexivity.
  - split; [exact H | exact H'].
Defined.

(** X15 at [dcp a b dst]. *)
Lemma mainopts_parse_sound_witness :
  exists t opts,
    mainopts_parse 1 2 4 8 15 plain 2
      (cmdline ["a"; "b"; "dst"]%string None None None None None)
    = (t, Done opts) /\
    Opts.filecount opts = 2 /\
    Opts.outputstream opts = Some (Opts.outfilename opts).
Proof.
  eexists. eexists. split; [reflexivity |].
  destruct (mainopts_parse_sound 1 2 4 8 15 plain 2
              (cmdline ["a"; "b"; "dst"]%string None None None None None)
              _ _ ltac:(vm_compute; discriminate) eq_refl)
    as (_ & _ & Hfc & Hout & _).
  split; [exact Hfc | exact Hout].
Defined.

(** X16 at [dcp --group=staff --cache-size=8k src dst] with
    [DCP_OWNER=alice] in the environment. *)
Lemma main_hands_over_witness :
  let info := cmdline ["src"; "dst"]%string None None None
                (Some "staff"%string) (Some "8k"%string) in
  let dcpopts := {| DcpOpts.bufsize := 8192;
                    DcpOpts.digests := 1;
                    DcpOpts.uid := 501;
                    DcpOpts.gid := 20;
                    DcpOpts.index := None;
                    DcpOpts.verbose := false |} in
  In ("dst/src"%string, dcpopts)
    (dcp_calls (trace (main 1 2 4 8 15 "1.0" with_env 2 argv info))) /\
  outcome (parse_cache_size with_env info) = Done 8192.
Proof.
  intros info dcpopts.
  assert (H : In ("dst/src"%string, dcpopts)
                (dcp_calls (trace (main 1 2 4 8 15 "1.0" with_env 2 argv
                                     info))))
    by (vm_compute; auto).
  split; [exact H |].
  destruct (main_hands_over 1 2 4 8 15 "1.0" with_env 2 argv info
              "dst/src" dcpopts H) as (_ & _ & Hsize & _).
  exact Hsize.
Defined.

(** X17 at the same run. *)
Lemma main_header_names_witness :
  let info := cmdline ["src"; "dst"]%string None None None
                (Some "staff"%string) (Some "8k"%string) in
  let h := header (trace (main 1 2 4 8 15 "1.0" with_env 2 argv info)) in
  In (io_metadata_put "data_owner " (Some "alice"%string)) h /\
  In (io_metadata_put "data_group " (Some "staff"%string)) h.
Proof.
  intros info h. subst h.
  destruct (main_header_names 1 2 4 8 15 "1.0" with_env 2 argv info)
    as [Ho Hg].
  split.
  - apply Ho. split; [vm_compute; auto |]. right. split; reflexivity.
  - apply Hg. split; [vm_compute; auto |]. left. split; reflexivity.
Defined.

(** X18 at [--sha1 --sha512]. *)
Lemma parse_digests_has_witness :
  has 1 2 4 8 SHA512 (parse_digests 1 2 4 8 15
                        (flags false false true false true)) = true /\
  has 1 2 4 8 MD5 (parse_digests 1 2 4 8 15
                     (flags false false true false true)) <> true.
Proof.
  split.
  - apply (parse_digests_has 1 2 4 8 15 DGST_one_bit DGST_apart_1248 eq_refl
             (flags false false true false true) SHA512).
    right. left. reflexivity.
  - intros H.
    apply (parse_digests_has 1 2 4 8 15 DGST_one_bit DGST_apart_1248 eq_refl
             (flags false false true false true) MD5) in H.
    destruct H as [H | [H | (_ & _ & H & _)]]; discriminate H.
Defined.

(** X19 at [dcp src dst]. *)
Lemma main_mask_not_empty_witness :
  let info := cmdline ["src"; "dst"]%string None None None None None in
  exists dcpopts a,
    In ("dst/src"%string, dcpopts)
      (dcp_calls (trace (main 1 2 4 8 15 "1.0" plain 2 argv info))) /\
    has 1 2 4 8 a (DcpOpts.digests dcpopts) = true.
Proof.
  intros info.
  assert (H : In ("dst/src"%string,
                  {| DcpOpts.bufsize := 32768;
                     DcpOpts.digests := 1;
                     DcpOpts.uid := 1000;
                     DcpOpts.gid := 100;
                     DcpOpts.index := None;
                     DcpOpts.verbose := false |})
                (dcp_calls (trace (main 1 2 4 8 15 "1.0" plain 2 argv
                                     info))))
    by (vm_compute; auto).
  destruct (main_mask_not_empty 1 2 4 8 15 "1.0" plain DGST_one_bit
              DGST_apart_1248 eq_refl 2 argv info _ _ H) as (a & Ha).
  eexists. exists a. split; [exact H | exact Ha].
Defined.

(** X20 at 4096, 64K and 12x. *)
Lemma parse_cache_size_decimal_witness :
  parse_cache_size_val "4096" = ([], Done 4096) /\
  parse_cache_size_val "64K" = ([], Done 65536) /\
  parse_cache_size_val "12x"
  = ([], Exit EXIT_FAILURE "invalid cache suffix: '12x'").
Proof.
  split; [| split].
  - apply (parse_cache_size_decimal 4096). vm_compute. split; discriminate.
  - destruct (parse_cache_size_decimal 64) as (_ & H & _);
      [vm_compute; split; discriminate |].
    apply (H "K"%char 1024). vm_compute. auto.
  - destruct (parse_cache_size_decimal 12) as (_ & _ & H);
      [vm_compute; split; discriminate |].
    apply (H "x"%char EmptyString); [reflexivity | | reflexivity].
    intros acc. reflexivity.
Defined.

(** X21 at 10kb. *)
Lemma parse_cache_size_tail_ignored_witness :
  parse_cache_size_val "10kb" = parse_cache_size_val "10k" /\
  parse_cache_size_val "10kb" = ([], Done 10240).
Proof.
  apply (parse_cache_size_tail_ignored 10 "k"%char 1024 "b").
  - vm_compute. split; discriminate.
  - vm_compute. auto.
Defined.
